(** * DENISE-Black-Edition Python API: configuration and stability engine

    A shallow embedding of [pyapi_denise.py] (class [Denise]) and the
    properties of its parameter registry, stability and dispersion analysis,
    domain-decomposition check, FWI workflow writer and run orchestration.

    Conventions of the embedding.
    - Python [str] is a list of characters ([text]); the alphabet is the
      code points 0..255.
    - A Python exception is a constructor of [exn]; a call that may raise
      returns a [result].
    - Python [float] and [np.float64] values are primitive binary64 floats
      ([float]); their arithmetic is the correctly rounded arithmetic of
      IEEE 754.  The library functions [np.log10], [np.power] and [np.mean]
      are not: their values are taken from the library ([Numpy]).
    - The file system is the set of directories that exist; paths hold no
      [..] component and no symbolic link.  Opening a file for writing
      fails where its directory does not exist or the path names a
      directory, and nowhere else.
    - The attributes created from the parameter file are kept in a
      dictionary of their own ([attrs]); they are taken not to shadow the
      members of the [Denise] object itself. *)

From Stdlib Require Import Floats.
From Stdlib Require Import Ascii String ZArith Lia Bool Arith List.
From Stdlib Require DecimalString.
Import ListNotations.

Set Implicit Arguments.
Set Warnings "-inexact-float".

(* ===================================================================== *)
(** ** Python exceptions and results *)

Inductive exn : Type :=
| IndexError
| AttributeError
| ValueError
| UnboundLocalError
| ZeroDivisionError
| OverflowError
| FileNotFoundError
| IsADirectoryError
| AssertionError (msg : string)
| OtherError.

Inductive result (A : Type) : Type :=
| Ok (a : A)
| Raise (e : exn).

Arguments Ok {A} a.
Arguments Raise {A} e.

Definition rbind {A B : Type} (m : result A) (f : A -> result B) : result B :=
  match m with
  | Ok a => f a
  | Raise e => Raise e
  end.

Declare Scope result_scope.
Delimit Scope result_scope with result.
Notation "x <- m ;; k" := (rbind m (fun x => k))
  (at level 61, m at next level, right associativity) : result_scope.

(* ===================================================================== *)
(** ** Python text *)

Definition text : Type := list ascii.

Definition txt (s : string) : text := list_ascii_of_string s.

Definition nl : ascii := "010"%char.
Definition tab : ascii := "009"%char.

(** [str(n)] for a Python [int]. *)
Definition str_int (z : Z) : text :=
  txt (DecimalString.NilZero.string_of_int (Z.to_int z)).

Module PyStr.

(** [str.isspace] on the code points below 256. *)
Definition is_space (c : ascii) : bool :=
  let n := nat_of_ascii c in
  ((9 <=? n) && (n <=? 13)) || ((28 <=? n) && (n <=? 32))
  || (n =? 133) || (n =? 160).

Fixpoint lstrip (s : text) : text :=
  match s with
  | [] => []
  | c :: r => if is_space c then lstrip r else s
  end.

Definition rstrip (s : text) : text := rev (lstrip (rev s)).

(** [s.strip()] *)
Definition strip (s : text) : text := rstrip (lstrip s).

(** [c in s] *)
Definition contains (c : ascii) (s : text) : bool :=
  existsb (Ascii.eqb c) s.

(** [s.split(sep)] for a one-character separator: never empty. *)
Fixpoint split (sep : ascii) (s : text) : list text :=
  match s with
  | [] => [[]]
  | c :: r =>
      if Ascii.eqb c sep then [] :: split sep r
      else match split sep r with
           | p :: ps => (c :: p) :: ps
           | [] => [[c]]
           end
  end.

(** [sep.join(parts)] *)
Fixpoint join (sep : ascii) (parts : list text) : text :=
  match parts with
  | [] => []
  | [p] => p
  | p :: ps => p ++ sep :: join sep ps
  end.

(** [s.replace(c, '')] *)
Definition remove_char (c : ascii) (s : text) : text :=
  filter (fun d => negb (Ascii.eqb d c)) s.

(** [fp.readlines()]: the lines of a text, each with its terminator; the
    text is taken as read, its line ends already translated to a newline. *)
Fixpoint readlines (s : text) : list text :=
  match s with
  | [] => []
  | c :: r =>
      if Ascii.eqb c nl then [c] :: readlines r
      else match readlines r with
           | l :: ls => (c :: l) :: ls
           | [] => [[c]]
           end
  end.

(** [re.findall(r'\((.*?)\)', s)]: the scan is either outside a group or
    inside one, holding the characters read since its opening parenthesis
    (in reverse).  A newline ends an open group without a match, since
    [.] does not match it. *)
Fixpoint findall_from (inside : option text) (s : text) : list text :=
  match s with
  | [] => []
  | c :: r =>
      match inside with
      | None =>
          if Ascii.eqb c "("%char then findall_from (Some []) r
          else findall_from None r
      | Some acc =>
          if Ascii.eqb c ")"%char then rev acc :: findall_from None r
          else if Ascii.eqb c nl then findall_from None r
          else findall_from (Some (c :: acc)) r
      end
  end.

Definition findall_parens (s : text) : list text := findall_from None s.

(** [l[-1]] *)
Definition last_item {A : Type} (l : list A) : result A :=
  match rev l with
  | [] => Raise IndexError
  | x :: _ => Ok x
  end.

(** The position [l[i]] denotes, with Python's negative indices. *)
Definition index_of (len : nat) (i : Z) : result nat :=
  if ((0 <=? i) && (i <? Z.of_nat len))%Z then Ok (Z.to_nat i)
  else if ((- Z.of_nat len <=? i) && (i <? 0))%Z
       then Ok (Z.to_nat (Z.of_nat len + i))
       else Raise IndexError.

(** [l[i]] *)
Definition getitem {A : Type} (l : list A) (i : Z) : result A :=
  match index_of (length l) i with
  | Ok n => match nth_error l n with
            | Some x => Ok x
            | None => Raise IndexError
            end
  | Raise e => Raise e
  end.

Fixpoint set_nth {A : Type} (l : list A) (n : nat) (x : A) : list A :=
  match l, n with
  | [], _ => []
  | _ :: r, O => x :: r
  | y :: r, S m => y :: set_nth r m x
  end.

(** [l[i] = x] *)
Definition setitem {A : Type} (l : list A) (i : Z) (x : A) : result (list A) :=
  match index_of (length l) i with
  | Ok n => Ok (set_nth l n x)
  | Raise e => Raise e
  end.

End PyStr.

(* ===================================================================== *)
(** ** Binary64 numbers *)

Module Float64.
Local Open Scope float_scope.

(** [float(z)] for a Python [int] below [2^63] in magnitude. *)
Definition of_Z (z : Z) : float :=
  if (z <? 0)%Z then - PrimFloat.of_uint63 (Uint63.of_Z (- z))
  else PrimFloat.of_uint63 (Uint63.of_Z z).

(** The largest integer not above a finite float. *)
Definition floor_Z (x : float) : option Z :=
  match Prim2SF x with
  | S754_zero _ => Some 0%Z
  | S754_finite s m e =>
      Some (if (0 <=? e)%Z then (if s then - (Zpos m * 2 ^ e) else Zpos m * 2 ^ e)
            else if s then - ((Zpos m + 2 ^ (- e) - 1) / 2 ^ (- e))
            else Zpos m / 2 ^ (- e))%Z
  | _ => None
  end.

(** A finite float without its fraction. *)
Definition trunc_Z (x : float) : option Z :=
  match Prim2SF x with
  | S754_zero _ => Some 0%Z
  | S754_finite s m e =>
      let n := if (0 <=? e)%Z then (Zpos m * 2 ^ e)%Z else (Zpos m / 2 ^ (- e))%Z in
      Some (if s then - n else n)%Z
  | _ => None
  end.

(** [x // 1] on an [np.float64]: the floor of a finite number (a float
    of exponent 0 or more is an integer already), [nan] otherwise. *)
Definition floor_div_1 (x : float) : float :=
  match Prim2SF x with
  | S754_zero _ => x
  | S754_finite s m e =>
      if (0 <=? e)%Z then x
      else match floor_Z x with
           | Some n => of_Z n
           | None => nan
           end
  | _ => nan
  end.

(** [int(x)] on a float: truncation toward zero; it raises on [nan] and
    on the infinities. *)
Definition py_int (x : float) : result Z :=
  match trunc_Z x with
  | Some n => Ok n
  | None => if PrimFloat.is_nan x then Raise ValueError else Raise OverflowError
  end.

End Float64.

(** Python dictionaries keep insertion order; assigning to a present key
    keeps its position. *)
Module PyDict.

Definition text_eqb (a b : text) : bool :=
  if list_eq_dec ascii_dec a b then true else false.

Definition dict (V : Type) : Type := list (text * V).

Fixpoint get {V : Type} (d : dict V) (k : text) : option V :=
  match d with
  | [] => None
  | (k', v) :: r => if text_eqb k' k then Some v else get r k
  end.

Fixpoint set {V : Type} (d : dict V) (k : text) (v : V) : dict V :=
  match d with
  | [] => [(k, v)]
  | (k', v') :: r =>
      if text_eqb k' k then (k', v) :: r else (k', v') :: set r k v
  end.

Definition keys {V : Type} (d : dict V) : list text := map fst d.

End PyDict.

(* ===================================================================== *)
(** ** Parameter registry: [_parse_inp_file] and [_write_inp_file] *)

Module Registry.
Import PyStr PyDict.
Local Open Scope result_scope.

(** Outcome of [ast.literal_eval]: a value, a [SyntaxError] or
    [ValueError] (which the parser catches), or any other exception. *)
Inductive eval_result (V : Type) : Type :=
| Evaluated (v : V)
| NotLiteral
| EvalRaised.

Arguments Evaluated {V} v.
Arguments NotLiteral {V}.
Arguments EvalRaised {V}.

(** One line of the parameter file, as the parser reads it. *)
Inductive parsed_line : Type :=
| Commented
| Assignment (arg_name arg_val : text)
| EndOfParameters.

Definition parse_line (line : text) : result parsed_line :=
  let line := strip line in
  match line with
  | [] => Raise IndexError
  | c :: _ =>
      if Ascii.eqb c "#"%char then Ok Commented
      else if contains "("%char line then
        arg_name <- last_item (findall_parens line) ;;
        Ok (Assignment arg_name (strip (last (split "="%char line) [])))
      else if contains "="%char line then
        Ok (Assignment (strip (hd [] (split "="%char line)))
                       (strip (last (split "="%char line) [])))
      else Ok EndOfParameters
  end.

(** ['='.join(line.split('=')[:-1])] *)
Definition before_last_eq (line : text) : text :=
  join "="%char (removelast (split "="%char line)).

Section Values.

(** Python objects other than [str] that a parameter can hold. *)
Variable lit : Type.

Inductive pyobj : Type :=
| PyStr (s : text)
| PyLit (v : lit).

Variable literal_eval : text -> eval_result pyobj.
Variable str_lit : lit -> text.

(** [str(o)] *)
Definition str (o : pyobj) : text :=
  match o with
  | PyStr s => s
  | PyLit v => str_lit v
  end.

Record ParameterSet : Type := {
  inp_file : list text;
  map_args : dict Z;
  attrs : dict pyobj
}.

(** "Recognize data type, if fails use string". *)
Definition typed_value (arg_val : text) : result pyobj :=
  match literal_eval arg_val with
  | Evaluated v => Ok v
  | NotLiteral => Ok (PyStr arg_val)
  | EvalRaised => Raise OtherError
  end.

Fixpoint parse_lines (lines : list text) (count : Z)
    (para : dict pyobj) (margs : dict Z) : result (dict pyobj * dict Z) :=
  match lines with
  | [] => Ok (para, margs)
  | line :: rest =>
      let count := (count + 1)%Z in
      p <- parse_line line ;;
      match p with
      | Commented => parse_lines rest count para margs
      | EndOfParameters => Ok (para, margs)
      | Assignment arg_name arg_val =>
          v <- typed_value arg_val ;;
          parse_lines rest count (set para arg_name v) (set margs arg_name count)
      end
  end.

(** [_dict_to_args]: [setattr] for every item. *)
Definition dict_to_args (d : dict pyobj) (a : dict pyobj) : dict pyobj :=
  fold_left (fun acc kv => set acc (fst kv) (snd kv)) d a.

Definition parse_inp_file (content : text) : result ParameterSet :=
  let lines := readlines content in
  pm <- parse_lines lines 0 [] [] ;;
  Ok {| inp_file := lines;
        map_args := snd pm;
        attrs := dict_to_args (fst pm) [] |}.

Definition setattr (self : ParameterSet) (k : text) (v : pyobj) : ParameterSet :=
  {| inp_file := inp_file self;
     map_args := map_args self;
     attrs := set (attrs self) k v |}.

Definition getattr (a : dict pyobj) (k : text) : result pyobj :=
  match get a k with
  | Some v => Ok v
  | None => Raise AttributeError
  end.

(** [str(v).replace('(', '').replace(')', '')] *)
Definition render (v : pyobj) : text :=
  remove_char ")"%char (remove_char "("%char (str v)).

Definition rewrite_line (line : text) (v : pyobj) : text :=
  before_last_eq line ++ txt "= " ++ render v ++ [nl].

(** The loop of [_write_inp_file]; [c] aliases [self._inp_file]. *)
Fixpoint write_lines (a : dict pyobj) (items : list (text * Z))
    (c : list text) : result (list text) :=
  match items with
  | [] => Ok c
  | (attr, line_id) :: rest =>
      old <- getitem c (line_id - 1) ;;
      v <- getattr a attr ;;
      c' <- setitem c (line_id - 1) (rewrite_line old v) ;;
      write_lines a rest c'
  end.

(** [_write_inp_file]: the object after the call (its line list is
    rewritten in place) and the text [''.join(c)] that is written to
    [self.filename] or printed. *)
Definition write_inp_file (self : ParameterSet) : result (ParameterSet * text) :=
  c <- write_lines (attrs self) (map_args self) (inp_file self) ;;
  Ok ({| inp_file := c; map_args := map_args self; attrs := attrs self |},
      concat c).

(** The name recorded for the line with 0-based index [i], if any. *)
Definition tracked_at (margs : dict Z) (i : nat) : option text :=
  option_map fst (find (fun kv => (snd kv =? Z.of_nat i + 1)%Z) margs).

(** The lines a serialization rewrites are distinct, exist, and their
    names are attributes of the object. *)
Definition wf_store (c : list text) (a : dict pyobj) (margs : dict Z) : Prop :=
  NoDup (map snd margs) /\
  forall k id, In (k, id) margs ->
    (1 <= id <= Z.of_nat (length c))%Z /\ get a k <> None.

(** What a serialization makes of the line with index [i]. *)
Definition rewritten (a : dict pyobj) (margs : dict Z) (i : nat) (line : text) : text :=
  match tracked_at margs i with
  | Some k => match get a k with
              | Some v => rewrite_line line v
              | None => line
              end
  | None => line
  end.

(** What the parser has recorded after [count] lines of [lines]: names
    and line numbers are unique, and each recorded name points to the
    line that last assigned it and holds that line's typed value. *)
Definition parse_inv (lines : list text) (count : Z)
    (para : dict pyobj) (margs : dict Z) : Prop :=
  NoDup (keys para) /\ NoDup (keys margs) /\ NoDup (map snd margs) /\
  forall k id, In (k, id) margs ->
    (1 <= id <= count)%Z /\
    exists line val v,
      nth_error lines (Z.to_nat (id - 1)) = Some line /\
      parse_line line = Ok (Assignment k val) /\
      typed_value val = Ok v /\
      get para k = Some v.

End Values.

Arguments PyStr {lit} s.
Arguments PyLit {lit} v.

(** An evaluator for closed examples: [ast.literal_eval] on unsigned
    decimal integer literals (no leading zero); any other text is taken
    as not a literal. *)
Definition is_digit (c : ascii) : bool :=
  let n := nat_of_ascii c in (48 <=? n) && (n <=? 57).

Definition digits_value (s : text) : Z :=
  fold_left (fun acc c => (10 * acc + Z.of_nat (nat_of_ascii c - 48))%Z) s 0%Z.

Definition int_literal_eval (s : text) : eval_result (pyobj Z) :=
  match s with
  | [] => NotLiteral
  | c :: r =>
      if forallb is_digit s && negb (Ascii.eqb c "0"%char && negb (Nat.eqb (length r) 0))
      then Evaluated (PyLit (digits_value s))
      else NotLiteral
  end.

End Registry.

(* ===================================================================== *)
(** ** FWI workflow: [add_fwi_stage], [_write_denise_workflow_header],
       [_write_denise_workflow] *)

Module Workflow.
Import PyStr.

(** The column names of [_write_denise_workflow_header], in order. *)
Definition header_names : list text :=
  map txt
    ["PRO"; "TIME_FILT"; "FC_low"; "FC_high"; "ORDER"; "TIME_WIN";
     "GAMMA"; "TWIN-"; "TWIN+"; "INV_VP_ITER"; "INV_VS_ITER";
     "INV_RHO_ITER"; "INV_QS_ITER"; "SPATFILTER"; "WD_DAMP"; "WD_DAMP1";
     "EPRECOND"; "LNORM"; "STF_INV"; "OFFSETC_STF"; "EPS_STF"; "NORMALIZE";
     "OFFSET_MUTE"; "OFFSETC"; "SCALERHO"; "SCALEQS"; "ENV"; "GAMMA_GRAV";
     "N_ORDER"]%string.

(** The header line: the names separated by [" \t "], closed by [" \n"]. *)
Fixpoint header_line (names : list text) : text :=
  match names with
  | [] => [nl]
  | [n] => n ++ txt " " ++ [nl]
  | n :: rest => n ++ txt " " ++ [tab] ++ txt " " ++ header_line rest
  end.

Definition workflow_header : text := header_line header_names.

Section Stages.

(** The Python objects passed to [add_fwi_stage], and [str] on them. *)
Variable value : Type.
Variable str : value -> text.

(** The dictionary built by [add_fwi_stage]: its 28 keys. *)
Record stage : Type := {
  PRO : value;
  TIME_FILT : value;
  FC_LOW : value;
  FC_HIGH : value;
  ORDER : value;
  TIME_WIN : value;
  GAMMA : value;
  TWIN_minus : value;
  TWIN_plus : value;
  INV_VP_ITER : value;
  INV_VS_ITER : value;
  INV_RHO_ITER : value;
  INV_QS_ITER : value;
  SPATFILTER : value;
  WD_DAMP : value;
  WD_DAMP1 : value;
  EPRECOND : value;
  LNORM : value;
  STF : value;
  OFFSETC_STF : value;
  EPS_STF : value;
  NORMALIZE : value;
  OFFSET_MUTE : value;
  OFFSETC : value;
  SCALERHO : value;
  SCALEQS : value;
  ENV : value;
  N_ORDER : value
}.

(** The dictionary [para] that [add_fwi_stage(pro, time_filt, ...,
    n_order)] builds from its arguments, before it appends it.  The
    defaults of the keyword arguments are supplied by the caller. *)
Definition make_stage
    (pro time_filt fc_low fc_high order time_win gamma twin_minus twin_plus
     inv_vp_iter inv_vs_iter inv_rho_iter inv_qs_iter spatfilter wd_damp
     wd_damp1 e_precond lnorm stf offsetc_stf eps_stf normalize offset_mute
     offsetc scale_rho scale_qs env n_order : value) : stage :=
  {| PRO := pro; TIME_FILT := time_filt; FC_LOW := fc_low;
     FC_HIGH := fc_high; ORDER := order; TIME_WIN := time_win;
     GAMMA := gamma; TWIN_minus := twin_minus; TWIN_plus := twin_plus;
     INV_VP_ITER := inv_vp_iter; INV_VS_ITER := inv_vs_iter;
     INV_RHO_ITER := inv_rho_iter; INV_QS_ITER := inv_qs_iter;
     SPATFILTER := spatfilter; WD_DAMP := wd_damp; WD_DAMP1 := wd_damp1;
     EPRECOND := e_precond; LNORM := lnorm; STF := stf;
     OFFSETC_STF := offsetc_stf; EPS_STF := eps_stf;
     NORMALIZE := normalize; OFFSET_MUTE := offset_mute;
     OFFSETC := offsetc; SCALERHO := scale_rho; SCALEQS := scale_qs;
     ENV := env; N_ORDER := n_order |}.

(** The 29 columns of a stage row, as [_write_denise_workflow] prints
    them: the 22nd and the 28th are the constant ["0"]. *)
Definition row_fields (s : stage) : list text :=
  [ str (PRO s); str (TIME_FILT s); str (FC_LOW s); str (FC_HIGH s);
    str (ORDER s); str (TIME_WIN s); str (GAMMA s); str (TWIN_minus s);
    str (TWIN_plus s); str (INV_VP_ITER s); str (INV_VS_ITER s);
    str (INV_RHO_ITER s); str (INV_QS_ITER s); str (SPATFILTER s);
    str (WD_DAMP s); str (WD_DAMP1 s); str (EPRECOND s); str (LNORM s);
    str (STF s); str (OFFSETC_STF s); str (EPS_STF s); txt "0";
    str (OFFSET_MUTE s); str (OFFSETC s); str (SCALERHO s);
    str (SCALEQS s); str (ENV s); txt "0"; str (N_ORDER s) ].

(** The text [_write_denise_workflow] appends for one stage. *)
Definition workflow_row (s : stage) : text :=
  join tab (row_fields s) ++ [nl].

(** The stored values a row prints (all but [NORMALIZE]). *)
Definition printed_values (s : stage) : list value :=
  [ PRO s; TIME_FILT s; FC_LOW s; FC_HIGH s; ORDER s; TIME_WIN s; GAMMA s;
    TWIN_minus s; TWIN_plus s; INV_VP_ITER s; INV_VS_ITER s; INV_RHO_ITER s;
    INV_QS_ITER s; SPATFILTER s; WD_DAMP s; WD_DAMP1 s; EPRECOND s; LNORM s;
    STF s; OFFSETC_STF s; EPS_STF s; OFFSET_MUTE s; OFFSETC s; SCALERHO s;
    SCALEQS s; ENV s; N_ORDER s ].

End Stages.

(** The columns of a line of the workflow file: split at tabulators, the
    blanks around each name dropped. *)
Definition columns (line : text) : list text :=
  map strip (split tab line).

End Workflow.

(* ===================================================================== *)
(** ** Coefficient tables *)

Module Tables.
Import Float64.
Local Open Scope float_scope.

(** Taylor coefficients *)
Definition hc_taylor : list (list float) :=
  [ [1; 0; 0; 0; 0; 0];
    [9 / 8; -1 / 24; 0; 0; 0; 0];
    [75 / 64; - 25 / 384; 3 / 640; 0; 0; 0];
    [1225 / 1024; - 245 / 3072; 49 / 5120; - 5 / 7168; 0; 0];
    [19845 / 16384; - 735 / 8192; 567 / 40960; - 405 / 229376;
     35 / 294912; 0];
    [160083 / 131072; - 12705 / 131072; 22869 / 1310720;
     - 5445 / 1835008; 847 / 2359296; - 63 / 2883584] ].

(** Holberg coefficients (E = 0.1%) *)
Definition hc_holberg_1 : list (list float) :=
  [ [1.001; 0; 0; 0; 0; 0];
    [1.1382; - 0.046414; 0; 0; 0; 0];
    [1.1965; - 0.078804; 0.0081781; 0; 0; 0];
    [1.2257; - 0.099537; 0.018063; - 0.0026274; 0; 0];
    [1.2415; - 0.11231; 0.026191; - 0.0064682; 0.001191; 0];
    [1.2508; - 0.12034; 0.032131; - 0.010142; 0.0029857; - 0.00066667] ].

(** Holberg coefficients (E = 0.5%) *)
Definition hc_holberg_2 : list (list float) :=
  [ [1.005; 0; 0; 0; 0; 0];
    [1.1534; - 0.052806; 0; 0; 0; 0];
    [1.2111; - 0.088313; 0.011768; 0; 0; 0];
    [1.2367; - 0.10815; 0.023113; - 0.0046905; 0; 0];
    [1.2496; - 0.11921; 0.03113; - 0.0093272; 0.0025161; 0];
    [1.2568; - 0.12573; 0.036423; - 0.013132; 0.0047484; - 0.0015979] ].

(** Holberg coefficients (E = 1.0%) *)
Definition hc_holberg_3 : list (list float) :=
  [ [1.01; 0; 0; 0; 0; 0];
    [1.164; - 0.057991; 0; 0; 0; 0];
    [1.2192; - 0.09407; 0.014608; 0; 0; 0];
    [1.2422; - 0.11269; 0.02614; - 0.0064054; 0; 0];
    [1.2534; - 0.12257; 0.033755; - 0.011081; 0.0036784; 0];
    [1.2596; - 0.12825; 0.03855; - 0.014763; 0.0058619; - 0.0024538] ].

(** Holberg coefficients (E = 3.0%) *)
Definition hc_holberg_4 : list (list float) :=
  [ [1.03; 0; 0; 0; 0; 0];
    [1.1876; - 0.072518; 0; 0; 0; 0];
    [1.2341; - 0.10569; 0.022589; 0; 0; 0];
    [1.2516; - 0.12085; 0.032236; - 0.011459; 0; 0];
    [1.2596; - 0.12829; 0.038533; - 0.014681; 0.007258; 0];
    [1.264; - 0.13239; 0.042217; - 0.017803; 0.0081959; - 0.0051848] ].

(** The table [hc] that [_check_stability] binds for the configured
    [max_relative_error]; for any other value [hc] stays unbound. *)
Definition hc (max_relative_error : Z) : result (list (list float)) :=
  if (max_relative_error =? 0)%Z then Ok hc_taylor
  else if (max_relative_error =? 1)%Z then Ok hc_holberg_1
  else if (max_relative_error =? 2)%Z then Ok hc_holberg_2
  else if (max_relative_error =? 3)%Z then Ok hc_holberg_3
  else if (max_relative_error =? 4)%Z then Ok hc_holberg_4
  else Raise UnboundLocalError.

(** Gridpoints per minimum wavelength for Taylor and Holberg operators. *)
Definition gridpoints_per_wavelength : list (list float) :=
  [ [23.0; 8.0; 6.0; 5.0; 5.0; 4.0];
    [49.7; 8.32; 4.77; 3.69; 3.19; 2.91];
    [22.2; 5.65; 3.74; 3.11; 2.8; 2.62];
    [15.8; 4.8; 3.39; 2.9; 2.65; 2.51];
    [9.16; 3.47; 2.91; 2.61; 2.45; 2.36] ].

(** [np.sum] of fewer than eight numbers: numpy adds them one after
    the other, in order. *)
Definition np_sum (l : list float) : float := fold_left PrimFloat.add l 0.

(** [np.max] and [np.min] of a flat array: a [nan] is propagated, and
    both raise on an empty array. *)
Definition np_maximum (a b : float) : float :=
  if (b <=? a) || PrimFloat.is_nan a then a else b.

Definition np_minimum (a b : float) : float :=
  if (a <=? b) || PrimFloat.is_nan a then a else b.

Definition np_max (l : list float) : result float :=
  match l with
  | [] => Raise ValueError
  | x :: r => Ok (fold_left np_maximum r x)
  end.

Definition np_min (l : list float) : result float :=
  match l with
  | [] => Raise ValueError
  | x :: r => Ok (fold_left np_minimum r x)
  end.

(** [a[np.nonzero(a)]]: the entries of a grid that differ from zero, row
    by row. *)
Definition nonzero (a : list (list float)) : list float :=
  filter (fun x => negb (x =? 0)) (concat a).

(** [(int)(FD_ORDER / 2) - 1] for an integer [FD_ORDER]. *)
Definition fd_index (FD_ORDER : Z) : Z := (Z.quot FD_ORDER 2 - 1)%Z.

(** The library functions whose values are not fixed by IEEE 754:
    [np.log10(x)], [np.power(x, y)] (behind [10 ** y]) and the mean of a
    grid, [a.mean()]. *)
Record Numpy : Type := {
  np_log10 : float -> float;
  np_power : float -> float -> float;
  np_mean : list (list float) -> float
}.

(** The CFL time step of [_check_stability], before rounding. *)
Definition cfl_dt (DH gamma maxvel : float) : float :=
  DH / (sqrt 2 * gamma * maxvel).

(** The possible endings of a time step: Python integers. *)
Definition endings : list Z := [10; 20; 25; 50; 80]%Z.

(** [np.max] of a list of Python integers. *)
Definition np_max_int (l : list Z) : result Z :=
  match l with
  | [] => Raise ValueError
  | x :: r => Ok (fold_left Z.max r x)
  end.

(** [last2digits >= e] for a float and a Python integer. *)
Definition float_ge_int (x : float) (e : Z) : bool := of_Z e <=? x.

(** "Round the dt toward min": the last lines of [_check_stability]. *)
Definition round_dt (np : Numpy) (dt : float) : result float :=
  let _dt := 0.99 * dt in
  let _dt10 := np_power np 10 (floor_div_1 (np_log10 np _dt) - 1) in
  let last2digits := _dt / _dt10 in
  let mask := map (fun e => if float_ge_int last2digits e then true else false) endings in
  match np_max_int (map fst (filter snd (combine endings mask))) with
  | Ok last2digits => Ok (of_Z last2digits * _dt10)
  | Raise e => Raise e
  end.

End Tables.

(* ===================================================================== *)
(** ** The [Denise] object and its run methods *)

Module Denise.
Import PyStr PyDict Float64 Tables Workflow.
Local Open Scope float_scope.

(** [os.path.join(a, b)] on POSIX paths. *)
Definition path_join (a b : text) : text :=
  match b with
  | c :: _ =>
      if Ascii.eqb c "/"%char then b else
      match rev a with
      | [] => b
      | d :: _ => if Ascii.eqb d "/"%char then a ++ b else a ++ "/"%char :: b
      end
  | [] =>
      match rev a with
      | [] => []
      | d :: _ => if Ascii.eqb d "/"%char then a else a ++ ["/"%char]
      end
  end.

(** ['/'.join(path.split('/')[:-1])] *)
Definition parent (path : text) : text :=
  join "/"%char (removelast (split "/"%char path)).

(** The subfolders [_create_folders] makes. *)
Definition folders : list text :=
  map txt ["start"; "su"; "receiver"; "source"; "snap"; "log"; "wavelet";
           "jacobian"; "model"; "gravity"; "picked_times"; "trace_kill"]%string.

(** Class [Model]: three grids of one shape, row by row, and the grid
    spacing. *)
Record Model : Type := {
  vp : list (list float);
  vs : list (list float);
  rho : list (list float);
  dx : float
}.

(** [a.shape[:2]] of a two-dimensional array. *)
Definition shape (a : list (list float)) : Z * Z :=
  (Z.of_nat (length a), Z.of_nat (length (hd [] a))).

(** Elementwise combination of two grids of one shape. *)
Definition grid_map2 (f : float -> float -> float) (a b : list (list float)) :
    list (list float) :=
  map (fun rows => map (fun xy => f (fst xy) (snd xy)) (combine (fst rows) (snd rows)))
      (combine a b).

(** [_get_poisson_ratio]; [a ** 2] on an array is [a * a]. *)
Definition get_poisson_ratio (m : Model) : list (list float) :=
  grid_map2 (fun p s => 0.5 * (p * p - 2 * (s * s)) / (p * p - s * s)) (vp m) (vs m).

(** Classes [Sources] and [Receivers]: the coordinate arrays, of equal
    length within a set. *)
Record Sources : Type := { src_x : list float; src_y : list float }.
Record Receivers : Type := { rec_x : list float; rec_y : list float }.

(** The message of the assertion in [_check_domain_decomp]. *)
Definition decomp_message (s : string) : string :=
  ("Error!!! Make sure N" ++ s ++ " % NPROC" ++ s ++ " = 0")%string.

(** [a % b] on integers. *)
Definition py_mod (a b : Z) : result Z :=
  if (b =? 0)%Z then Raise ZeroDivisionError else Ok (a mod b)%Z.

(** *** Directories

    A directory is named by whether its path is absolute and by the
    components of the path; empty components and [.] do not count. *)
Definition location : Type := (bool * list text)%type.

Definition components (path : text) : list text :=
  filter (fun c => negb (text_eqb c [] || text_eqb c (txt ".")))
         (split "/"%char path).

Definition locate (path : text) : location :=
  (match path with
   | c :: _ => Ascii.eqb c "/"%char
   | [] => false
   end, components path).

Definition location_eqb (a b : location) : bool :=
  Bool.eqb (fst a) (fst b) &&
  (if list_eq_dec (list_eq_dec ascii_dec) (snd a) (snd b) then true else false).

(** The working directory and the root always exist. *)
Definition dir_exists (dirs : list location) (d : location) : bool :=
  match snd d with
  | [] => true
  | _ => existsb (location_eqb d) dirs
  end.

(** [dirname]: the directory a path lies in. *)
Definition parent_dir (d : location) : location := (fst d, removelast (snd d)).

(** What [os.makedirs(path, exist_ok=True)] makes sure of: the directory
    and every directory above it. *)
Definition made (d : location) : list location :=
  map (fun n => (fst d, firstn n (snd d))) (seq 1 (length (snd d))).

(** The exception of [open(path, mode)] for a writing mode, if any: the
    path is empty, names a directory, or lies in a directory that does
    not exist. *)
Definition open_error (dirs : list location) (path : text) : option exn :=
  let d := locate path in
  match path with
  | [] => Some FileNotFoundError
  | _ =>
      if dir_exists dirs d then Some IsADirectoryError
      else if dir_exists dirs (parent_dir d) then None
      else Some FileNotFoundError
  end.

Section Object.

Variable value : Type.
Variable str : value -> text.
Variable np : Numpy.

(** What the methods leave outside the process, and what they print.  The
    content of a file is kept where a method of the class builds it as
    text; numeric files and the parameter file are named only. *)
Inductive payload : Type :=
| Text (t : text)
| ParameterText
| Data.

Inductive fragment : Type :=
| FText (t : text)
| FInt (z : Z)
| FFloat (x : float)
| FStage (s : stage value)
| FElapsed.

Inductive event : Type :=
| Print (line : list fragment)
| Makedirs (path : text)
| FileWrite (path : text) (content : payload)
| FileAppend (path : text) (content : payload)
| System (command : text).

(** The path attributes [set_paths] assigns that the run methods use;
    the others reach the solver through the parameter file only, whose
    text is the subject of [Registry]. *)
Record Paths : Type := {
  DATA_DIR : text;
  filename : text;
  filename_workflow : text;
  MFILE : text;
  REC_FILE : text;
  SOURCE_FILE : text
}.

(** Attributes the run methods read and never assign. *)
Record Settings : Type := {
  NPROCX : Z;
  NPROCY : Z;
  TIME : float;
  N_STREAMER : Z;
  VPUPPERLIM : float;
  VSUPPERLIM : float;
  max_relative_error : Z;
  FD_ORDER : Z
}.

(** The object, and with it the part of the file system its methods act
    on: the directories that exist. *)
Record Denise : Type := {
  verbose : Z;
  root_denise : text;
  save_folder : text;
  SEIS_FILE_NAME : text;
  fwi_stages : list (stage value);
  settings : Settings;
  paths : Paths;
  model : Model;
  NX : Z;
  NY : Z;
  DH : float;
  NREC : Z;
  NSRC : Z;
  MODE : Z;
  DT : option float;
  NT : option Z;
  READREC : Z;
  directories : list location
}.

Definition with_paths (p : Paths) (self : Denise) : Denise :=
  {| verbose := verbose self; root_denise := root_denise self;
     save_folder := save_folder self; SEIS_FILE_NAME := SEIS_FILE_NAME self;
     fwi_stages := fwi_stages self; settings := settings self;
     paths := p;
     model := model self; NX := NX self; NY := NY self; DH := DH self;
     NREC := NREC self; NSRC := NSRC self; MODE := MODE self;
     DT := DT self; NT := NT self; READREC := READREC self;
     directories := directories self |}.

Definition with_REC_FILE (f : text) (self : Denise) : Denise :=
  with_paths
    {| DATA_DIR := DATA_DIR (paths self); filename := filename (paths self);
       filename_workflow := filename_workflow (paths self);
       MFILE := MFILE (paths self); REC_FILE := f;
       SOURCE_FILE := SOURCE_FILE (paths self) |} self.

Definition with_model (m : Model) (ny nx : Z) (dh : float) (self : Denise) : Denise :=
  {| verbose := verbose self; root_denise := root_denise self;
     save_folder := save_folder self; SEIS_FILE_NAME := SEIS_FILE_NAME self;
     fwi_stages := fwi_stages self; settings := settings self;
     paths := paths self;
     model := m; NX := nx; NY := ny; DH := dh;
     NREC := NREC self; NSRC := NSRC self; MODE := MODE self;
     DT := DT self; NT := NT self; READREC := READREC self;
     directories := directories self |}.

Definition with_counts (nrec nsrc : Z) (self : Denise) : Denise :=
  {| verbose := verbose self; root_denise := root_denise self;
     save_folder := save_folder self; SEIS_FILE_NAME := SEIS_FILE_NAME self;
     fwi_stages := fwi_stages self; settings := settings self;
     paths := paths self;
     model := model self; NX := NX self; NY := NY self; DH := DH self;
     NREC := nrec; NSRC := nsrc; MODE := MODE self;
     DT := DT self; NT := NT self; READREC := READREC self;
     directories := directories self |}.

Definition with_MODE (m : Z) (self : Denise) : Denise :=
  {| verbose := verbose self; root_denise := root_denise self;
     save_folder := save_folder self; SEIS_FILE_NAME := SEIS_FILE_NAME self;
     fwi_stages := fwi_stages self; settings := settings self;
     paths := paths self;
     model := model self; NX := NX self; NY := NY self; DH := DH self;
     NREC := NREC self; NSRC := NSRC self; MODE := m;
     DT := DT self; NT := NT self; READREC := READREC self;
     directories := directories self |}.

Definition with_DT (dt : option float) (self : Denise) : Denise :=
  {| verbose := verbose self; root_denise := root_denise self;
     save_folder := save_folder self; SEIS_FILE_NAME := SEIS_FILE_NAME self;
     fwi_stages := fwi_stages self; settings := settings self;
     paths := paths self;
     model := model self; NX := NX self; NY := NY self; DH := DH self;
     NREC := NREC self; NSRC := NSRC self; MODE := MODE self;
     DT := dt; NT := NT self; READREC := READREC self;
     directories := directories self |}.

Definition with_NT (nt : option Z) (self : Denise) : Denise :=
  {| verbose := verbose self; root_denise := root_denise self;
     save_folder := save_folder self; SEIS_FILE_NAME := SEIS_FILE_NAME self;
     fwi_stages := fwi_stages self; settings := settings self;
     paths := paths self;
     model := model self; NX := NX self; NY := NY self; DH := DH self;
     NREC := NREC self; NSRC := NSRC self; MODE := MODE self;
     DT := DT self; NT := nt; READREC := READREC self;
     directories := directories self |}.

Definition with_READREC (r : Z) (self : Denise) : Denise :=
  {| verbose := verbose self; root_denise := root_denise self;
     save_folder := save_folder self; SEIS_FILE_NAME := SEIS_FILE_NAME self;
     fwi_stages := fwi_stages self; settings := settings self;
     paths := paths self;
     model := model self; NX := NX self; NY := NY self; DH := DH self;
     NREC := NREC self; NSRC := NSRC self; MODE := MODE self;
     DT := DT self; NT := NT self; READREC := r;
     directories := directories self |}.

Definition with_directories (d : list location) (self : Denise) : Denise :=
  {| verbose := verbose self; root_denise := root_denise self;
     save_folder := save_folder self; SEIS_FILE_NAME := SEIS_FILE_NAME self;
     fwi_stages := fwi_stages self; settings := settings self;
     paths := paths self;
     model := model self; NX := NX self; NY := NY self; DH := DH self;
     NREC := NREC self; NSRC := NSRC self; MODE := MODE self;
     DT := DT self; NT := NT self; READREC := READREC self;
     directories := d |}.

Definition with_fwi_stages (l : list (stage value)) (self : Denise) : Denise :=
  {| verbose := verbose self; root_denise := root_denise self;
     save_folder := save_folder self; SEIS_FILE_NAME := SEIS_FILE_NAME self;
     fwi_stages := l; settings := settings self;
     paths := paths self;
     model := model self; NX := NX self; NY := NY self; DH := DH self;
     NREC := NREC self; NSRC := NSRC self; MODE := MODE self;
     DT := DT self; NT := NT self; READREC := READREC self;
     directories := directories self |}.

(** A method call: what it emitted, the object afterwards, and its
    return value or exception. *)
Record outcome (A : Type) : Type := {
  events : list event;
  final : Denise;
  value_of : result A
}.

Definition M (A : Type) : Type := Denise -> outcome A.

Definition ret {A : Type} (a : A) : M A :=
  fun self => {| events := []; final := self; value_of := Ok a |}.

Definition raise {A : Type} (e : exn) : M A :=
  fun self => {| events := []; final := self; value_of := Raise e |}.

Definition bind {A B : Type} (m : M A) (f : A -> M B) : M B :=
  fun self =>
    let o := m self in
    match value_of o with
    | Ok a =>
        let o' := f a (final o) in
        {| events := events o ++ events o';
           final := final o';
           value_of := value_of o' |}
    | Raise e =>
        {| events := events o; final := final o; value_of := Raise e |}
    end.

(** An outcome with earlier events in front. *)
Definition prepend {A : Type} (l : list event) (o : outcome A) : outcome A :=
  {| events := l ++ events o; final := final o; value_of := value_of o |}.

Definition emit (e : event) : M unit :=
  fun self => {| events := [e]; final := self; value_of := Ok tt |}.

Definition read {A : Type} (f : Denise -> A) : M A :=
  fun self => {| events := []; final := self; value_of := Ok (f self) |}.

Definition modify (f : Denise -> Denise) : M unit :=
  fun self => {| events := []; final := f self; value_of := Ok tt |}.

Definition lift {A : Type} (r : result A) : M A :=
  fun self => {| events := []; final := self; value_of := r |}.

Declare Scope run_scope.
Delimit Scope run_scope with run.
Local Notation "x <- m ;; k" := (bind m (fun x => k))
  (at level 61, m at next level, right associativity) : run_scope.
Local Notation "m ;; k" := (bind m (fun _ => k))
  (at level 61, right associativity) : run_scope.
Local Open Scope run_scope.

(** [for x in l: body(x)] *)
Fixpoint for_each {A : Type} (l : list A) (body : A -> M unit) : M unit :=
  match l with
  | [] => ret tt
  | x :: r => body x ;; for_each r body
  end.

(** [print], [_print_1], [_print_2] *)
Definition print (line : list fragment) : M unit := emit (Print line).

Definition print_1 (line : list fragment) : M unit :=
  v <- read verbose ;;
  if (v =? 1)%Z then print line else ret tt.

Definition print_2 (line : list fragment) : M unit :=
  v <- read verbose ;;
  if (v =? 2)%Z then print line else ret tt.

(** [os.makedirs(path, exist_ok=True)] *)
Definition makedirs (path : text) : M unit :=
  modify (fun self => with_directories (made (locate path) ++ directories self) self) ;;
  emit (Makedirs path).

(** [open(path, mode)] for a writing mode ([w], [wb], [a]), as the class
    calls it and as [np.savetxt], [np.save] and [tofile] do. *)
Definition open_file (path : text) : M unit :=
  dirs <- read directories ;;
  match open_error dirs path with
  | Some e => raise e
  | None => ret tt
  end.

(** A file opened, written and closed. *)
Definition write_file (path : text) (content : payload) : M unit :=
  open_file path ;; emit (FileWrite path content).

(** A file opened in mode [a], written and closed. *)
Definition append_file (path : text) (content : payload) : M unit :=
  open_file path ;; emit (FileAppend path content).

(** [add_fwi_stage]: [self.fwi_stages.append(para)] for the dictionary
    [para] of [make_stage]. *)
Definition add_fwi_stage (para : stage value) : M unit :=
  modify (fun self => with_fwi_stages (fwi_stages self ++ [para]) self).

(** [_create_folders] *)
Definition create_folders (save_path : text) : M unit :=
  for_each folders
    (fun f => makedirs (path_join save_path (f ++ txt "/"))).

(** [set_paths] *)
Definition set_paths (makedirs : bool) : M unit :=
  (if makedirs then (d <- read save_folder ;; create_folders d) else ret tt) ;;
  modify (fun self =>
    let route := path_join (save_folder self) in
    let s := SEIS_FILE_NAME self in
    with_paths
      {| DATA_DIR := route (txt "su/" ++ s);
         filename := route (s ++ txt ".inp");
         filename_workflow := route (s ++ txt "_fwi.inp");
         MFILE := route (txt "start/model");
         REC_FILE := route (txt "receiver/receivers");
         SOURCE_FILE := route (txt "source/sources.dat") |} self).

(** [set_model], for an argument of class [Model]. *)
Definition set_model (m : Model) : M unit :=
  modify (with_model m (fst (shape (vp m))) (snd (shape (vp m))) (dx m)).

(** [_write_model] *)
Definition write_model : M unit :=
  f <- read (fun self => MFILE (paths self)) ;;
  print_1 [FText (txt "Write binaries for"); FText (f ++ txt ".vp");
           FText (f ++ txt ".vs"); FText (f ++ txt ".rho")] ;;
  write_file (f ++ txt ".vp") Data ;;
  write_file (f ++ txt ".vs") Data ;;
  write_file (f ++ txt ".rho") Data.

(** [_write_src_rec] *)
Definition write_src_rec (src_ : Sources) (rec_ : Receivers) : M unit :=
  r <- read (fun self => REC_FILE (paths self)) ;;
  s <- read (fun self => SOURCE_FILE (paths self)) ;;
  write_file (r ++ txt ".dat") Data ;;
  write_file s Data ;;
  write_file (parent r ++ txt "/rec_x.npy") Data ;;
  write_file (parent r ++ txt "/rec_y.npy") Data ;;
  write_file (parent s ++ txt "/src_x.npy") Data ;;
  write_file (parent s ++ txt "/src_y.npy") Data.

(** [_write_inp_file()] inside a run: the text [Registry.write_inp_file]
    builds goes to [self.filename]. *)
Definition write_inp_file : M unit :=
  f <- read (fun self => filename (paths self)) ;;
  write_file f ParameterText.

(** [_check_stability] *)
Definition check_stability (maxvp maxvs : float) : M float :=
  print_1 [FText (txt "Check stability:")] ;;
  print_1 [FText (tab :: txt "max Vs: "); FFloat maxvs; FText (txt "  m/s")] ;;
  print_1 [FText (tab :: txt "max Vp: "); FFloat maxvp; FText (txt " m/s")] ;;
  let maxvel := if maxvp <? maxvs then maxvs else maxvp in
  fd_order <- read (fun self => FD_ORDER (settings self)) ;;
  let fdcoeff := fd_index fd_order in
  e <- read (fun self => max_relative_error (settings self)) ;;
  table <- lift (hc e) ;;
  row <- lift (getitem table fdcoeff) ;;
  let gamma := np_sum (map PrimFloat.abs row) in
  dh <- read DH ;;
  let dt := cfl_dt dh gamma maxvel in
  print_1 [FText (tab :: txt "According to the Courant-Friedrichs-Lewy (CFL) criterion")] ;;
  print_1 [FText (tab :: txt "the maximum time step is DT = "); FFloat dt;
           FText (txt " sec")] ;;
  dt_round <- lift (round_dt np dt) ;;
  print_1 [FText (tab :: txt "Rounded dt = "); FFloat dt_round] ;;
  ret dt_round.

(** [_check_max_frequency] *)
Definition check_max_frequency : M unit :=
  m <- read model ;;
  minvs <- lift (np_min (nonzero (vs m))) ;;
  print_1 [FText (txt "Check max source frequency:")] ;;
  print_1 [FText (tab :: txt "min Vs: "); FFloat minvs; FText (txt " m/s")] ;;
  minvp <- lift (np_min (nonzero (vp m))) ;;
  print_1 [FText (tab :: txt "min Vp: "); FFloat minvp; FText (txt " m/s")] ;;
  let minvel := if minvp <? minvs then minvp else minvs in
  e <- read (fun self => max_relative_error (settings self)) ;;
  fd_order <- read (fun self => FD_ORDER (settings self)) ;;
  row <- lift (getitem gridpoints_per_wavelength e) ;;
  num_grid_points <- lift (getitem row (fd_index fd_order)) ;;
  print_1 [FText (tab :: txt "Number of gridpoints per minimum wavelength = ");
           FFloat num_grid_points] ;;
  dh <- read DH ;;
  let fmax := minvel / (num_grid_points * dh) in
  print_1 [FText (tab :: txt "Maximum source wavelet frequency = "); FFloat fmax;
           FText (txt " Hz")] ;;
  ret tt.

(** The inner [check(s)] of [_check_domain_decomp]. *)
Definition check (s : string) (n nproc : Z) : M unit :=
  decomp <- lift (py_mod n nproc) ;;
  print_1 [FText (tab :: txt ("in " ++ s ++ "-direction, N" ++ s ++ " % NPROC" ++ s ++ ", "));
           FInt n; FText (txt " % "); FInt nproc; FText (txt " = "); FInt decomp] ;;
  if (decomp =? 0)%Z then ret tt
  else raise (AssertionError (decomp_message s)).

(** [_check_domain_decomp] *)
Definition check_domain_decomp : M unit :=
  print_1 [FText (txt "Check domain decomposition for parallelization:")] ;;
  nx <- read NX ;;
  nprocx <- read (fun self => NPROCX (settings self)) ;;
  check "X" nx nprocx ;;
  ny <- read NY ;;
  nprocy <- read (fun self => NPROCY (settings self)) ;;
  check "Y" ny nprocy.

(** The streamer loop of [_engine]. *)
Definition write_streamer_files (src : Sources) (rec : Receivers) : M unit :=
  modify (with_READREC 2) ;;
  rec_filename <- read (fun self => REC_FILE (paths self)) ;;
  for_each (seq 1 (length (src_x src)))
    (fun isrc =>
       let f := rec_filename ++ txt "_shot_" ++ str_int (Z.of_nat isrc) in
       modify (with_REC_FILE f) ;;
       print_1 [FText (tab :: txt "source "); FInt (Z.of_nat isrc);
                FText (txt ": "); FText f] ;;
       write_src_rec src rec) ;;
  modify (with_REC_FILE rec_filename).

(** [_engine] *)
Definition engine (m : Model) (src : Sources) (rec : Receivers)
    (run_command : option text) (disable : bool) : M unit :=
  set_paths true ;;
  set_model m ;;
  modify (with_counts (Z.of_nat (length (rec_x rec))) (Z.of_nat (length (src_x src)))) ;;
  check_max_frequency ;;
  check_domain_decomp ;;
  mdl <- read model ;;
  let poisson_ratio := np_mean np (get_poisson_ratio mdl) in
  let vs_mean := np_mean np (vs mdl) in
  print_1 [FText (txt "Check elastic ratios:")] ;;
  print_1 [FText (tab :: txt "Poisson ratio:"); FFloat poisson_ratio] ;;
  print_1 [FText (tab :: txt "Shear wave velocity:"); FFloat vs_mean] ;;
  print_1 [FText (tab :: txt "Rayleigh velocity:");
           FFloat (vs_mean * (0.862 + 1.14 * poisson_ratio) / (1 + poisson_ratio))] ;;
  mode <- read MODE ;;
  dt0 <- read DT ;;
  (if (mode <? 1)%Z then
     print_1 [FText (txt "Compute DT from model given as argument")] ;;
     maxvp <- lift (np_max (nonzero (vp mdl))) ;;
     maxvs <- lift (np_max (nonzero (vs mdl))) ;;
     dt <- check_stability maxvp maxvs ;;
     modify (with_DT (Some dt)) ;;
     t <- read (fun self => TIME (settings self)) ;;
     nt <- lift (py_int (t / dt)) ;;
     modify (with_NT (Some nt))
   else match dt0 with
        | None =>
            print_1 [FText (txt "Compute DT from BOX constraints. VPUPPERLIM, VSUPPERLIM")] ;;
            vpu <- read (fun self => VPUPPERLIM (settings self)) ;;
            vsu <- read (fun self => VSUPPERLIM (settings self)) ;;
            dt <- check_stability vpu vsu ;;
            modify (with_DT (Some dt))
        | Some _ => ret tt
        end) ;;
  write_model ;;
  n_streamer <- read (fun self => N_STREAMER (settings self)) ;;
  (if (0 <? n_streamer)%Z then
     print_1 [FText (txt "Enable streamer mode!")] ;;
     write_streamer_files src rec
   else write_src_rec src rec) ;;
  write_inp_file ;;
  nprocx <- read (fun self => NPROCX (settings self)) ;;
  nprocy <- read (fun self => NPROCY (settings self)) ;;
  let run_command :=
    match run_command with
    | Some c => c
    | None => txt "mpirun -np " ++ str_int (nprocx * nprocy)
    end in
  nrec <- read NREC ;;
  nsrc <- read NSRC ;;
  nt <- read NT ;;
  print_1 [FText (txt "Start simulation for NREC: "); FInt nrec;
           FText (txt ", NSRC: "); FInt nsrc; FText (txt ", NT: ");
           match nt with Some n => FInt n | None => FText (txt "None") end;
           FText (txt "...wait")] ;;
  if disable then ret tt
  else
    root <- read root_denise ;;
    f <- read (fun self => filename (paths self)) ;;
    w <- read (fun self => filename_workflow (paths self)) ;;
    folder <- read save_folder ;;
    let command :=
      run_command ++ txt " " ++ txt " " ++ path_join root (txt "bin/denise ")
      ++ txt " " ++ f ++ txt " " ++ w in
    print [FText command] ;;
    emit (System command) ;;
    print [FText (txt "Done. "); FElapsed; FText (txt " sec.");
           FText (txt "Check results in " ++ folder ++ txt "su/")].

(** [forward] *)
Definition forward (m : Model) (src : Sources) (rec : Receivers)
    (run_command : option text) (disable : bool) : M unit :=
  modify (with_MODE 0) ;;
  engine m src rec run_command disable.

(** [_write_denise_workflow_header] and [_write_denise_workflow] *)
Definition write_denise_workflow_header : M unit :=
  w <- read (fun self => filename_workflow (paths self)) ;;
  write_file w (Text workflow_header).

Definition write_denise_workflow (s : stage value) : M unit :=
  w <- read (fun self => filename_workflow (paths self)) ;;
  append_file w (Text (workflow_row str s)).

(** [enumerate(l)] *)
Definition enumerate {A : Type} (l : list A) : list (nat * A) :=
  combine (seq 0 (length l)) l.

(** [fwi] *)
Definition fwi (m : Model) (src : Sources) (rec : Receivers)
    (run_command : option text) (disable : bool) : M unit :=
  d <- read (fun self => DATA_DIR (paths self)) ;;
  print_1 [FText (txt "Target data: "); FText d] ;;
  modify (with_MODE 1) ;;
  stages <- read fwi_stages ;;
  if (0 <? Z.of_nat (length stages))%Z then
    w <- read (fun self => filename_workflow (paths self)) ;;
    print_1 [FText (txt "Create FWI workflow file in "); FText w] ;;
    write_denise_workflow_header ;;
    for_each (enumerate stages)
      (fun i_stage =>
         print_2 [FText (tab :: txt "write FWI stage "); FInt (Z.of_nat (fst i_stage));
                  FText (txt ":"); FStage (snd i_stage)] ;;
         write_denise_workflow (snd i_stage)) ;;
    engine m src rec run_command disable
  else
    print [FText (txt "WARNING! Denise.fwi_stages is empty! Append api.StageFWI() to it.")].

(** An event that leaves nothing outside the process but folders. *)
Definition no_output (e : event) : Prop :=
  match e with
  | Print _ | Makedirs _ => True
  | FileWrite _ _ | FileAppend _ _ | System _ => False
  end.

(** The file and process events of a trace. *)
Definition outputs (l : list event) : list event :=
  filter (fun e => match e with
                   | Print _ | Makedirs _ => false
                   | _ => true
                   end) l.

(** The object on which [_engine] runs its two checks. *)
Definition checked_object (self : Denise) (m : Model)
    (src : Sources) (rec : Receivers) (p : Paths) : Denise :=
  with_counts (Z.of_nat (length (rec_x rec))) (Z.of_nat (length (src_x src)))
    (with_model m (fst (shape (vp m))) (snd (shape (vp m))) (dx m)
       (with_paths p self)).

(** A call that leaves nothing but messages and folders. *)
Definition quiet {A : Type} (m : M A) : Prop :=
  forall self, Forall no_output (events (m self)).

(** A call that leaves the object as it was. *)
Definition stateless {A : Type} (m : M A) : Prop :=
  forall self, final (m self) = self.

(** An outcome that is an exception, with nothing left outside but
    messages and folders. *)
Definition aborted {A : Type} (o : outcome A) : Prop :=
  Forall no_output (events o) /\ exists e, value_of o = Raise e.

(** The messages of [_check_max_frequency] at verbosity 1. *)
Definition frequency_messages (minvs minvp ppw fmax : float) : list event :=
  [ Print [FText (txt "Check max source frequency:")];
    Print [FText (tab :: txt "min Vs: "); FFloat minvs; FText (txt " m/s")];
    Print [FText (tab :: txt "min Vp: "); FFloat minvp; FText (txt " m/s")];
    Print [FText (tab :: txt "Number of gridpoints per minimum wavelength = ");
           FFloat ppw];
    Print [FText (tab :: txt "Maximum source wavelet frequency = "); FFloat fmax;
           FText (txt " Hz")] ].

(** What [fwi] emits for the workflow file, before it enters [_engine]. *)
Definition workflow_events (self : Denise) : list event :=
  (if (verbose self =? 1)%Z
   then [Print [FText (txt "Target data: "); FText (DATA_DIR (paths self))]]
   else []) ++
  (if (verbose self =? 1)%Z
   then [Print [FText (txt "Create FWI workflow file in ");
                FText (filename_workflow (paths self))]]
   else []) ++
  FileWrite (filename_workflow (paths self)) (Text workflow_header) ::
  flat_map
    (fun i_stage =>
       (if (verbose self =? 2)%Z
        then [Print [FText (tab :: txt "write FWI stage ");
                     FInt (Z.of_nat (fst i_stage)); FText (txt ":");
                     FStage (snd i_stage)]]
        else []) ++
       [FileAppend (filename_workflow (paths self))
          (Text (workflow_row str (snd i_stage)))])
    (enumerate (fwi_stages self)).

End Object.

Arguments check_max_frequency {value} self.
Arguments check_domain_decomp {value} self.
Arguments frequency_messages {value} minvs minvp ppw fmax.
Arguments FText {value} t.
Arguments FInt {value} z.
Arguments FFloat {value} x.
Arguments FElapsed {value}.
Arguments Print {value} line.
Arguments FileWrite {value} path content.
Arguments FileAppend {value} path content.
Arguments Makedirs {value} path.
Arguments System {value} command.
Arguments Text t : clear implicits.

End Denise.

(* ===================================================================== *)
(** ** Lines of the parameter file, and the paths [set_paths] assigns *)

Module RegistryLines.
Import PyStr PyDict Registry.

Section Lines.
Variable lit : Type.
Variable literal_eval : text -> eval_result (pyobj lit).

(** A line the parser reads on from: a comment, or an assignment whose
    value is typed without an exception. *)
Definition reads_on (line : text) : Prop :=
  parse_line line = Ok Commented \/
  exists k val v,
    parse_line line = Ok (Assignment k val) /\ typed_value literal_eval val = Ok v.

(** Every assignment among the lines [pre] is recorded in [margs], under
    a line number not before it. *)
Definition recorded (pre : list text) (margs : dict Z) : Prop :=
  forall j line k val,
    nth_error pre j = Some line ->
    parse_line line = Ok (Assignment k val) ->
    exists id, In (k, id) margs /\ (Z.of_nat j + 1 <= id)%Z.

End Lines.
End RegistryLines.

Module PathTable.
Import PyStr PyDict Registry.

(** The inner [route] of [set_paths]. *)
Definition route (save_folder old_path : text) : text :=
  Denise.path_join save_folder old_path.

(** The keys of the dictionary [p] that [set_paths] fills, each with the
    path it routes, for [s = self.SEIS_FILE_NAME]. *)
Definition path_table (s : text) : list (text * text) :=
  [ (txt "DATA_DIR", txt "su/" ++ s);
    (txt "filename", s ++ txt ".inp");
    (txt "filename_workflow", s ++ txt "_fwi.inp");
    (txt "MFILE", txt "start/model");
    (txt "SEIS_FILE_VX", txt "su/" ++ s ++ txt "_x.su");
    (txt "SEIS_FILE_VY", txt "su/" ++ s ++ txt "_y.su");
    (txt "SEIS_FILE_CURL", txt "su/" ++ s ++ txt "_rot.su");
    (txt "SEIS_FILE_DIV", txt "su/" ++ s ++ txt "_div.su");
    (txt "SEIS_FILE_P", txt "su/" ++ s ++ txt "_p.su");
    (txt "REC_FILE", txt "receiver/receivers");
    (txt "SOURCE_FILE", txt "source/sources.dat");
    (txt "SIGNAL_FILE", txt "wavelet/wavelet_" ++ s);
    (txt "SNAP_FILE", txt "snap/waveform_forward");
    (txt "LOG_FILE", txt "log/" ++ s ++ txt ".log");
    (txt "JACOBIAN", txt "jacobian/gradient_Test");
    (txt "MISFIT_LOG_FILE", s ++ txt "_fwi_log.dat");
    (txt "INV_MODELFILE", txt "model/modelTest");
    (txt "TRKILL_FILE", txt "trace_kill/trace_kill.dat");
    (txt "PICKS_FILE", txt "picked_times/picks_");
    (txt "DATA_DIR_T0", txt "su/CAES_spike_time_0/" ++ s ++ txt "_CAES");
    (txt "DFILE", txt "gravity/background_density.rho") ].

Section Attributes.
Variable lit : Type.

(** The dictionary [p] of [set_paths]. *)
Definition paths_dict (save_folder s : text) : dict (pyobj lit) :=
  map (fun kv => (fst kv, PyStr (route save_folder (snd kv)))) (path_table s).

(** [set_paths()] on the attributes of the registry:
    [self._dict_to_args(p)]. *)
Definition set_paths (save_folder s : text) (self : ParameterSet lit) : ParameterSet lit :=
  {| inp_file := inp_file self;
     map_args := map_args self;
     attrs := dict_to_args (paths_dict save_folder s) (attrs self) |}.

End Attributes.

(** [p] starts with [q]. *)
Definition starts_with (q p : text) : Prop := exists rest, p = q ++ rest.

(** The path attributes the run methods read, by name. *)
Definition run_paths (p : Denise.Paths) : list (text * text) :=
  [ (txt "DATA_DIR", Denise.DATA_DIR p);
    (txt "filename", Denise.filename p);
    (txt "filename_workflow", Denise.filename_workflow p);
    (txt "MFILE", Denise.MFILE p);
    (txt "REC_FILE", Denise.REC_FILE p);
    (txt "SOURCE_FILE", Denise.SOURCE_FILE p) ].

End PathTable.

(* ===================================================================== *)
(** ** The documented rules, in the words of the specification *)

Module Spec.
Import PyStr PyDict Float64 Tables Workflow Denise.
Local Open Scope float_scope.

(** The five coefficient sets, by accuracy class. *)
Definition coefficient_sets : list (list (list float)) :=
  [hc_taylor; hc_holberg_1; hc_holberg_2; hc_holberg_3; hc_holberg_4].

(** The coefficient-table row selected by
    [(accuracy_class, operator_half_length - 1)]. *)
Definition coefficient_row (accuracy_class operator_half_length : Z) :
    option (list float) :=
  match nth_error coefficient_sets (Z.to_nat accuracy_class) with
  | Some table => nth_error table (Z.to_nat (operator_half_length - 1))
  | None => None
  end.

(** "the sum of absolute values of the row", taken from left to right. *)
Definition sum_abs (row : list float) : float :=
  fold_left (fun acc c => acc + PrimFloat.abs c) row 0.

(** [max(a, b)] *)
Definition v_max (a b : float) : float := if a <? b then b else a.

(** [min(a, b)] *)
Definition v_min (a b : float) : float := if a <? b then a else b.

Definition candidates : list Z := [10; 20; 25; 50; 80]%Z.

(** [dt_safe = 0.99 * dt_raw] with
    [dt_raw = grid_spacing / (sqrt(2) * gamma * v_max)]. *)
Definition dt_safe (row : list float) (grid_spacing max_vp max_vs : float) : float :=
  0.99 * (grid_spacing / (sqrt 2 * sum_abs row * v_max max_vp max_vs)).

(** [scale = 10^exp10] with [exp10 = floor(log10(dt_safe)) - 1]. *)
Definition scale (np : Numpy) (dt_safe : float) : float :=
  np_power np 10 (floor_div_1 (np_log10 np dt_safe) - 1).

(** [mantissa = dt_safe / scale] *)
Definition mantissa (np : Numpy) (dt_safe : float) : float :=
  dt_safe / scale np dt_safe.

(** A candidate that is [<= mantissa]. *)
Definition qualifies (mantissa : float) (c : Z) : Prop :=
  In c candidates /\ (of_Z c <=? mantissa) = true.

(** "the largest value from the fixed candidate set that is [<= mantissa]" *)
Definition largest_candidate (mantissa : float) (c : Z) : Prop :=
  qualifies mantissa c /\ forall c', qualifies mantissa c' -> (c' <= c)%Z.

(** "If no candidate is [<= mantissa]": the defect condition. *)
Definition no_candidate (mantissa : float) : Prop :=
  forall c, In c candidates -> (of_Z c <=? mantissa) = false.

(** [dt] is the time step the documented rounding rule gives. *)
Definition documented_dt (np : Numpy) (accuracy_class operator_half_length : Z)
    (grid_spacing max_vp max_vs dt : float) : Prop :=
  exists row candidate,
    coefficient_row accuracy_class operator_half_length = Some row /\
    let safe := dt_safe row grid_spacing max_vp max_vs in
    largest_candidate (mantissa np safe) candidate /\
    dt = of_Z candidate * scale np safe.

(** The grid-point count selected by
    [(accuracy_class, operator_half_length - 1)]. *)
Definition points_per_wavelength (accuracy_class operator_half_length : Z) :
    option float :=
  match nth_error gridpoints_per_wavelength (Z.to_nat accuracy_class) with
  | Some row => nth_error row (Z.to_nat (operator_half_length - 1))
  | None => None
  end.

(** [fmax = v_min / (points_per_wavelength * grid_spacing)] with
    [v_min = min(min_vp, min_vs)]. *)
Definition documented_fmax (ppw grid_spacing min_vp min_vs : float) : float :=
  v_min min_vp min_vs / (ppw * grid_spacing).

(** The largest ending that a mantissa reaches, if any. *)
Definition ladder (m : float) : option Z :=
  if of_Z 80 <=? m then Some 80%Z
  else if of_Z 50 <=? m then Some 50%Z
  else if of_Z 25 <=? m then Some 25%Z
  else if of_Z 20 <=? m then Some 20%Z
  else if of_Z 10 <=? m then Some 10%Z
  else None.

Section WorkflowFile.
Variable value : Type.
Variable str : value -> text.

(** The columns the header names, in order, each with the stage field it
    stands for; the two reserved columns stand for none. *)
Definition stage_columns : list (string * option (stage value -> value)) :=
  [ ("PRO", Some (@PRO value)); ("TIME_FILT", Some (@TIME_FILT value));
    ("FC_low", Some (@FC_LOW value)); ("FC_high", Some (@FC_HIGH value));
    ("ORDER", Some (@ORDER value)); ("TIME_WIN", Some (@TIME_WIN value));
    ("GAMMA", Some (@GAMMA value)); ("TWIN-", Some (@TWIN_minus value));
    ("TWIN+", Some (@TWIN_plus value));
    ("INV_VP_ITER", Some (@INV_VP_ITER value));
    ("INV_VS_ITER", Some (@INV_VS_ITER value));
    ("INV_RHO_ITER", Some (@INV_RHO_ITER value));
    ("INV_QS_ITER", Some (@INV_QS_ITER value));
    ("SPATFILTER", Some (@SPATFILTER value)); ("WD_DAMP", Some (@WD_DAMP value));
    ("WD_DAMP1", Some (@WD_DAMP1 value)); ("EPRECOND", Some (@EPRECOND value));
    ("LNORM", Some (@LNORM value)); ("STF_INV", Some (@STF value));
    ("OFFSETC_STF", Some (@OFFSETC_STF value)); ("EPS_STF", Some (@EPS_STF value));
    ("NORMALIZE", None);
    ("OFFSET_MUTE", Some (@OFFSET_MUTE value)); ("OFFSETC", Some (@OFFSETC value));
    ("SCALERHO", Some (@SCALERHO value)); ("SCALEQS", Some (@SCALEQS value));
    ("ENV", Some (@ENV value)); ("GAMMA_GRAV", None);
    ("N_ORDER", Some (@N_ORDER value)) ]%string.

(** What a stage row holds under each header name: the string of the
    stage field, and the literal [0] in a reserved column. *)
Definition documented_fields (st : stage value) : list text :=
  map (fun c => match snd c with
                | Some field => str (field st)
                | None => txt "0"
                end) stage_columns.

(** "one tab-separated row per stage" *)
Definition documented_row (st : stage value) : text :=
  join tab (documented_fields st) ++ [nl].

(** "one fixed header row, followed by one tab-separated row per stage in
    append order" *)
Definition documented_workflow (stages : list (stage value)) : text :=
  workflow_header ++ concat (map documented_row stages).

(** The text of the file at [path] after the events of a call, from the
    text it held before. *)
Fixpoint file_text (path : text) (l : list (event value)) (before : text) : text :=
  match l with
  | [] => before
  | FileWrite p (Text t) :: r =>
      file_text path r (if text_eqb p path then t else before)
  | FileAppend p (Text t) :: r =>
      file_text path r (if text_eqb p path then before ++ t else before)
  | _ :: r => file_text path r before
  end.

End WorkflowFile.

End Spec.

(* ===================================================================== *)
(** ** A small run, after the demo of the module *)

Module Demo.
Import Float64 Tables Denise.
Local Open Scope float_scope.

(** A table of values of [np.log10]; the examples depend on their
    integer parts only. *)
Definition log10_values : list (float * float) :=
  [ (0.0032216408669208754, -2.4919228742853843);
    (0.00313215084283974, -2.504157330702396);
    (0.005637871517111533, -2.24888482559909);
    (0.003382722910266919, -2.4707335752154465);
    (0.002987314414893369, -2.524719065488576);
    (0.0009999999999999996, -3);
    (0.009999999999999998, -2) ].

(** A table of values of [10 ** y]. *)
Definition power10_values : list (float * float) :=
  [ (-4, 0.0001); (-3, 0.001) ].

Fixpoint lookup (t : list (float * float)) (x : float) : float :=
  match t with
  | [] => nan
  | (a, b) :: r => if a =? x then b else lookup r x
  end.

(** The library functions on the arguments of the closed examples below:
    [np.log10] and [10 ** y] by their tables, and the mean of a grid of
    fewer than eight numbers, which numpy adds in order. *)
Definition numpy : Numpy :=
  {| np_log10 := lookup log10_values;
     np_power := fun x y => if x =? 10 then lookup power10_values y else nan;
     np_mean := fun a => np_sum (concat a) / of_Z (Z.of_nat (length (concat a))) |}.

(** A homogeneous model on a 2 x 3 grid: [vp = 3500], [vs = vp / 1.7],
    [rho = 1800], [dx = 20]. *)
Definition demo_model : Model :=
  {| vp := [ [3500; 3500; 3500]; [3500; 3500; 3500] ];
     vs := [ [3500 / 1.7; 3500 / 1.7; 3500 / 1.7];
             [3500 / 1.7; 3500 / 1.7; 3500 / 1.7] ];
     rho := [ [1800; 1800; 1800]; [1800; 1800; 1800] ];
     dx := 20 |}.

Definition demo_sources : Sources := {| src_x := [800]; src_y := [40] |}.
Definition demo_receivers : Receivers := {| rec_x := [800; 820]; rec_y := [460; 460] |}.

(** Taylor operators of order 6 on a 5 x 3 process grid. *)
Definition demo_settings : Settings :=
  {| NPROCX := 5; NPROCY := 3; TIME := 6; N_STREAMER := 0;
     VPUPPERLIM := 6000; VSUPPERLIM := 4000;
     max_relative_error := 0; FD_ORDER := 6 |}.

Definition demo_paths : Paths :=
  {| DATA_DIR := txt "./outputs/su/seis";
     filename := txt "./outputs/seis.inp";
     filename_workflow := txt "./outputs/seis_fwi.inp";
     MFILE := txt "./outputs/start/model";
     REC_FILE := txt "./outputs/receiver/receivers";
     SOURCE_FILE := txt "./outputs/source/sources.dat" |}.

(** The object in a fresh working directory, with integers as stage
    values; [NX] and [NY] hold the grid of the module's demo (500 x 174)
    until a run binds the model. *)
Definition demo : Denise Z :=
  {| verbose := 1; root_denise := txt "./"; save_folder := txt "./outputs/";
     SEIS_FILE_NAME := txt "seis"; fwi_stages := [];
     settings := demo_settings; paths := demo_paths; model := demo_model;
     NX := 500; NY := 174; DH := 20; NREC := 0; NSRC := 0; MODE := 0;
     DT := None; NT := None; READREC := 1;
     directories := [] |}.

(** The same object where the folder [./outputs] exists, as after a
    forward run. *)
Definition demo_outputs : Denise Z :=
  with_directories [(false, [txt "outputs"])] demo.

(** A stage with integer arguments; [normalize] is 7. *)
Definition demo_stage : Workflow.stage Z :=
  (Workflow.make_stage 1 1 0 5 6 0 20 0 0 0 0 0 0 0 1 1 3 2 0 (-4) 1 7 0 10 1 1 1 0)%Z.

(** Three stages that differ in [fc_high] (2, 5 and 10) and in
    [normalize]. *)
Definition stage_a : Workflow.stage Z :=
  (Workflow.make_stage 1 1 0 2 6 0 20 0 0 0 0 0 0 0 1 1 3 2 0 (-4) 1 7 0 10 1 1 1 0)%Z.
Definition stage_b : Workflow.stage Z :=
  (Workflow.make_stage 1 1 0 5 6 0 20 0 0 0 0 0 0 0 1 1 3 2 0 (-4) 1 8 0 10 1 1 1 0)%Z.
Definition stage_c : Workflow.stage Z :=
  (Workflow.make_stage 1 1 0 10 6 0 20 0 0 0 0 0 0 0 1 1 3 2 0 (-4) 1 9 0 10 1 1 1 0)%Z.

(** The object after one [add_fwi_stage], in a fresh working directory
    and where [./outputs] exists. *)
Definition demo_fwi : Denise Z := with_fwi_stages [demo_stage] demo.
Definition demo_fwi_outputs : Denise Z := with_fwi_stages [demo_stage] demo_outputs.

(** A parameter file in the form the writer produces. *)
Definition canonical_demo : text :=
  txt "# grid" ++ [nl] ++ txt "number of gridpoints (NX) = 500" ++ [nl]
  ++ txt "MODE = 0" ++ [nl].

(** Two parameters written without blanks around [=]. *)
Definition two_parameters : text := txt "A=1" ++ [nl] ++ txt "B=2" ++ [nl].

(** A grid spacing at which the safe time step falls just below 0.001. *)
Definition fine_grid : Denise Z :=
  with_model demo_model 2 3 4.999744917480637
    {| verbose := 1; root_denise := txt "./"; save_folder := txt "./outputs/";
       SEIS_FILE_NAME := txt "seis"; fwi_stages := [];
       settings := {| NPROCX := 5; NPROCY := 3; TIME := 6; N_STREAMER := 0;
                      VPUPPERLIM := 6000; VSUPPERLIM := 4000;
                      max_relative_error := 0; FD_ORDER := 2 |};
       paths := demo_paths; model := demo_model;
       NX := 500; NY := 174; DH := 20; NREC := 0; NSRC := 0; MODE := 0;
       DT := None; NT := None; READREC := 1;
       directories := [] |}.

End Demo.

(* ===================================================================== *)
(** ** Further small objects for closed examples *)

Module Cases.
Import Denise.
Local Open Scope float_scope.

(** The demo object with other settings. *)
Definition configured (s : Settings) : Denise Z :=
  {| verbose := 1; root_denise := txt "./"; save_folder := txt "./outputs/";
     SEIS_FILE_NAME := txt "seis"; fwi_stages := [];
     settings := s; paths := Demo.demo_paths; model := Demo.demo_model;
     NX := 500; NY := 174; DH := 20; NREC := 0; NSRC := 0; MODE := 0;
     DT := None; NT := None; READREC := 1;
     directories := [] |}.

(** Taylor operators with a given [FD_ORDER]. *)
Definition taylor (fd_order : Z) : Settings :=
  {| NPROCX := 5; NPROCY := 3; TIME := 6; N_STREAMER := 0;
     VPUPPERLIM := 6000; VSUPPERLIM := 4000;
     max_relative_error := 0; FD_ORDER := fd_order |}.

(** An accuracy class given as [-1]. *)
Definition last_class : Settings :=
  {| NPROCX := 5; NPROCY := 3; TIME := 6; N_STREAMER := 0;
     VPUPPERLIM := 6000; VSUPPERLIM := 4000;
     max_relative_error := -1; FD_ORDER := 6 |}.

End Cases.

(* ===================================================================== *)
(** ** Facts about the parameter registry *)

Module RegistryFacts.
Import PyStr PyDict Registry.

Lemma text_eqb_eq (a b : text) : text_eqb a b = true <-> a = b.
Proof.
  unfold text_eqb. destruct (list_eq_dec ascii_dec a b); split; congruence.
Qed.

Lemma text_eqb_refl (a : text) : text_eqb a a = true.
Proof. now apply text_eqb_eq. Qed.

Lemma text_eqb_neq (a b : text) : a <> b -> text_eqb a b = false.
Proof.
  intros H. destruct (text_eqb a b) eqn:E; [ | reflexivity ].
  apply text_eqb_eq in E. contradiction.
Qed.

Lemma concat_readlines (s : text) : concat (readlines s) = s.
Proof.
  induction s as [ | c r IH ]; simpl; [ reflexivity | ].
  destruct (Ascii.eqb c nl).
  - simpl. now rewrite IH.
  - destruct (readlines r) as [ | l ls ]; simpl in *.
    + now rewrite <- IH.
    + now rewrite <- IH.
Qed.

Section DictFacts.
Variable V : Type.
Implicit Types (d : dict V) (k : text) (v : V).

Lemma get_set_same d k v : get (set d k v) k = Some v.
Proof.
  induction d as [ | [k' v'] r IH ]; simpl.
  - now rewrite text_eqb_refl.
  - destruct (text_eqb k' k) eqn:E; simpl; rewrite E; auto.
Qed.

Lemma get_set_other d k k' v : k <> k' -> get (set d k v) k' = get d k'.
Proof.
  intros Hne. induction d as [ | [k0 v0] r IH ]; simpl.
  - now rewrite text_eqb_neq.
  - destruct (text_eqb k0 k) eqn:E; simpl.
    + apply text_eqb_eq in E. subst k0. now rewrite text_eqb_neq.
    + now rewrite IH.
Qed.

Lemma get_none_keys d k : get d k = None <-> ~ In k (keys d).
Proof.
  induction d as [ | [k0 v0] r IH ]; simpl.
  - tauto.
  - destruct (text_eqb k0 k) eqn:E.
    + apply text_eqb_eq in E. split; [ discriminate | intros H; exfalso; auto ].
    + rewrite IH. split.
      * intros H [H1 | H1]; [ | auto ].
        subst. now rewrite text_eqb_refl in E.
      * tauto.
Qed.

Lemma in_set d k v k' v' :
  In (k', v') (set d k v) -> (k' = k /\ v' = v) \/ In (k', v') d.
Proof.
  induction d as [ | [k0 v0] r IH ]; simpl.
  - intros [H | []]. inversion H. auto.
  - destruct (text_eqb k0 k) eqn:E; simpl.
    + apply text_eqb_eq in E. subst k0.
      intros [H | H]; [ inversion H; auto | auto ].
    + intros [H | H]; [ auto | ]. destruct (IH H); auto.
Qed.

Lemma in_set_nodup d k v k' v' :
  NoDup (keys d) -> In (k', v') (set d k v) ->
  (k' = k /\ v' = v) \/ (k' <> k /\ In (k', v') d).
Proof.
  induction d as [ | [k0 v0] r IH ]; simpl; intros Hnd.
  - intros [H | []]. inversion H. auto.
  - inversion Hnd as [ | ? ? Hnot Hnd' ]; subst.
    destruct (text_eqb k0 k) eqn:E; simpl.
    + apply text_eqb_eq in E. subst k0.
      intros [H | H]; [ inversion H; auto | ].
      right. split; [ | auto ].
      intros ->. apply Hnot. unfold keys. now apply (in_map fst) in H.
    + intros [H | H].
      * inversion H; subst. right. split; [ | auto ].
        intros ->. now rewrite text_eqb_refl in E.
      * destruct (IH Hnd' H) as [ ? | [? ?] ]; auto.
Qed.

Lemma keys_set d k v :
  keys (set d k v) =
  match get d k with Some _ => keys d | None => keys d ++ [k] end.
Proof.
  induction d as [ | [k0 v0] r IH ]; simpl; [ reflexivity | ].
  destruct (text_eqb k0 k) eqn:E; simpl; [ reflexivity | ].
  rewrite IH. now destruct (get r k).
Qed.

Lemma nodup_keys_set d k v : NoDup (keys d) -> NoDup (keys (set d k v)).
Proof.
  intros Hnd. rewrite keys_set. destruct (get d k) eqn:E; [ assumption | ].
  apply get_none_keys in E.
  apply NoDup_app; [ assumption | repeat constructor; simpl; tauto | ].
  intros x Hx [<- | []]. contradiction.
Qed.

Lemma values_set d k (v : V) x :
  In x (map snd (set d k v)) -> x = v \/ In x (map snd d).
Proof.
  intros H. apply in_map_iff in H. destruct H as [[k' v'] [<- H]].
  apply in_set in H. destruct H as [[_ ->] | H]; [ auto | ].
  right. now apply (in_map snd) in H.
Qed.

Lemma nodup_values_set d k (v : V) :
  NoDup (map snd d) -> ~ In v (map snd d) -> NoDup (map snd (set d k v)).
Proof.
  induction d as [ | [k0 v0] r IH ]; simpl; intros Hnd Hfresh.
  - repeat constructor. simpl. tauto.
  - inversion Hnd as [ | ? ? Hnot Hnd' ]; subst.
    destruct (text_eqb k0 k); simpl.
    + constructor; [ tauto | assumption ].
    + constructor.
      * intros H. apply values_set in H. tauto.
      * apply IH; tauto.
Qed.
End DictFacts.

Section ListFacts.
Variable A : Type.
Implicit Types (l : list A) (x : A).

Lemma length_set_nth l n x : length (set_nth l n x) = length l.
Proof.
  revert n. induction l as [ | y r IH ]; intros [ | n ]; simpl; auto.
Qed.

Lemma nth_error_set_nth_same l n x :
  n < length l -> nth_error (set_nth l n x) n = Some x.
Proof.
  revert n. induction l as [ | y r IH ]; intros [ | n ]; simpl; intros H;
    try lia; [ reflexivity | apply IH; lia ].
Qed.

Lemma nth_error_set_nth_other l n m x :
  n <> m -> nth_error (set_nth l n x) m = nth_error l m.
Proof.
  revert n m. induction l as [ | y r IH ]; intros [ | n ] [ | m ]; simpl;
    intros H; try reflexivity; try lia.
  apply IH. lia.
Qed.

Lemma index_of_line (len : nat) (id : Z) :
  (1 <= id <= Z.of_nat len)%Z ->
  index_of len (id - 1) = Ok (Z.to_nat (id - 1)) /\ Z.to_nat (id - 1) < len.
Proof.
  intros H. unfold index_of.
  replace ((0 <=? id - 1)%Z && (id - 1 <? Z.of_nat len)%Z) with true.
  - split; [ reflexivity | lia ].
  - symmetry. apply andb_true_iff. split; [ apply Z.leb_le | apply Z.ltb_lt ]; lia.
Qed.
End ListFacts.

Section Store.
Variable lit : Type.
Variable literal_eval : text -> eval_result (pyobj lit).
Variable str_lit : lit -> text.


Lemma tracked_at_cons k id margs i :
  tracked_at ((k, id) :: margs) i =
  if (id =? Z.of_nat i + 1)%Z then Some k else tracked_at margs i.
Proof.
  unfold tracked_at. simpl. now destruct (id =? Z.of_nat i + 1)%Z.
Qed.

Lemma tracked_at_in margs i k :
  tracked_at margs i = Some k -> In (k, (Z.of_nat i + 1)%Z) margs.
Proof.
  unfold tracked_at. destruct (find _ margs) as [[k' id] | ] eqn:E; [ | discriminate ].
  simpl. intros [= <-]. apply find_some in E. destruct E as [Hin Heq].
  simpl in Heq. apply Z.eqb_eq in Heq. now subst.
Qed.

Lemma tracked_at_none margs i :
  ~ In (Z.of_nat i + 1)%Z (map snd margs) -> tracked_at margs i = None.
Proof.
  intros H. destruct (tracked_at margs i) eqn:E; [ | reflexivity ].
  apply tracked_at_in in E. apply (in_map snd) in E. contradiction.
Qed.

Lemma in_tracked_at margs k id :
  NoDup (map snd margs) -> In (k, id) margs -> (1 <= id)%Z ->
  tracked_at margs (Z.to_nat (id - 1)) = Some k.
Proof.
  intros Hnd Hin Hid.
  induction margs as [ | [k0 id0] r IH ]; [ contradiction | ].
  rewrite tracked_at_cons. simpl in Hnd. inversion Hnd as [ | ? ? Hnot Hnd' ]; subst.
  destruct Hin as [H | H].
  - inversion H; subst. replace (id =? _)%Z with true; [ reflexivity | ].
    symmetry. apply Z.eqb_eq. lia.
  - destruct (id0 =? Z.of_nat (Z.to_nat (id - 1)) + 1)%Z eqn:E.
    + apply Z.eqb_eq in E. exfalso. apply Hnot.
      replace id0 with id by lia. now apply (in_map snd) in H.
    + auto.
Qed.

Lemma write_lines_spec (a : dict (pyobj lit)) items : forall c,
  wf_store c a items ->
  exists c', write_lines str_lit a items c = Ok c' /\
             length c' = length c /\
             forall i line, nth_error c i = Some line ->
               nth_error c' i = Some (rewritten str_lit a items i line).
Proof.
  induction items as [ | [k id] rest IH ]; intros c [Hnd Hin].
  - exists c. repeat split; auto.
  - simpl in Hnd. inversion Hnd as [ | ? ? Hnot Hnd' ]; subst.
    destruct (Hin k id (or_introl eq_refl)) as [Hrange Hattr].
    destruct (index_of_line (length c) Hrange) as [Hidx Hlt].
    destruct (nth_error c (Z.to_nat (id - 1))) as [old | ] eqn:Hold;
      [ | apply nth_error_None in Hold; lia ].
    destruct (get a k) as [v | ] eqn:Hv; [ | congruence ].
    simpl. unfold getitem, setitem, getattr. rewrite Hidx, Hold, Hv. simpl.
    destruct (IH (set_nth c (Z.to_nat (id - 1)) (rewrite_line str_lit old v)))
      as (c' & Hw & Hlen & Hpt).
    { split; [ assumption | ]. intros k' id' H'.
      rewrite length_set_nth. apply Hin. now right. }
    exists c'. split; [ exact Hw | ]. split.
    { now rewrite Hlen, length_set_nth. }
    intros i line Hi. unfold rewritten. rewrite tracked_at_cons.
    destruct (id =? Z.of_nat i + 1)%Z eqn:E.
    + apply Z.eqb_eq in E. assert (i = Z.to_nat (id - 1)) by lia. subst i.
      rewrite Hv. rewrite Hold in Hi. injection Hi as <-.
      rewrite (Hpt _ (rewrite_line str_lit old v)).
      * unfold rewritten. rewrite tracked_at_none; [ reflexivity | ].
        now replace (Z.of_nat (Z.to_nat (id - 1)) + 1)%Z with id by lia.
      * now apply nth_error_set_nth_same.
    + apply Z.eqb_neq in E. apply Hpt.
      rewrite nth_error_set_nth_other; [ assumption | lia ].
Qed.

Lemma get_dict_to_args (d acc : dict (pyobj lit)) k :
  NoDup (keys d) ->
  get (dict_to_args d acc) k =
  match get d k with Some v => Some v | None => get acc k end.
Proof.
  revert acc. induction d as [ | [k0 v0] r IH ]; intros acc Hnd; simpl.
  - reflexivity.
  - inversion Hnd as [ | ? ? Hnot Hnd' ]; subst.
    unfold dict_to_args in *. simpl. rewrite IH by assumption.
    destruct (text_eqb k0 k) eqn:E.
    + apply text_eqb_eq in E. subst k0.
      apply get_none_keys in Hnot. rewrite Hnot. apply get_set_same.
    + destruct (get r k); [ reflexivity | ].
      apply get_set_other. intros ->. now rewrite text_eqb_refl in E.
Qed.

Lemma parse_inv_weaken lines n m para margs :
  (n <= m)%Z ->
  parse_inv literal_eval lines n para margs ->
  parse_inv literal_eval lines m para margs.
Proof.
  intros Hle (H1 & H2 & H3 & H4). repeat split; auto; destruct (H4 _ _ H); auto; lia.
Qed.

Lemma parse_lines_inv : forall rest pre para margs pm,
  parse_lines literal_eval rest (Z.of_nat (length pre)) para margs = Ok pm ->
  parse_inv literal_eval (pre ++ rest) (Z.of_nat (length pre)) para margs ->
  parse_inv literal_eval (pre ++ rest) (Z.of_nat (length (pre ++ rest))) (fst pm) (snd pm).
Proof.
  induction rest as [ | line rest IH ]; intros pre para margs pm Hp Hinv.
  - simpl in Hp. injection Hp as <-. now rewrite app_nil_r in *.
  - assert (Hcount : (Z.of_nat (length pre) + 1)%Z = Z.of_nat (length (pre ++ [line]))).
    { rewrite length_app. simpl. lia. }
    assert (Hlist : pre ++ line :: rest = (pre ++ [line]) ++ rest).
    { now rewrite <- app_assoc. }
    simpl in Hp. destruct (parse_line line) as [p | ] eqn:Hline; [ | discriminate ].
    simpl in Hp. destruct p as [ | k val | ].
    + rewrite Hcount in Hp. rewrite Hlist. apply (IH _ _ _ _ Hp).
      rewrite <- Hlist. apply parse_inv_weaken with (2 := Hinv).
      rewrite length_app. simpl. lia.
    + destruct (typed_value literal_eval val) as [v | ] eqn:Hval; [ | discriminate ].
      simpl in Hp. rewrite Hcount in Hp. rewrite Hlist. apply (IH _ _ _ _ Hp).
      rewrite <- Hlist, <- Hcount.
      destruct Hinv as (Hk & Hm & Hv & Hall).
      split; [ now apply nodup_keys_set | ].
      split; [ now apply nodup_keys_set | ].
      split.
      { apply nodup_values_set; [ assumption | ].
        intros Hin. apply in_map_iff in Hin. destruct Hin as [[k' id'] [Heq Hin]].
        simpl in Heq. subst id'. destruct (Hall _ _ Hin). lia. }
      intros k' id' Hin. apply in_set_nodup in Hin; [ | assumption ].
      destruct Hin as [[-> ->] | [Hne Hin]].
      * split; [ lia | ]. exists line, val, v.
        replace (Z.to_nat (Z.of_nat (length pre) + 1 - 1)) with (length pre) by lia.
        rewrite nth_error_app2 by lia. rewrite Nat.sub_diag. simpl.
        repeat split; auto. apply get_set_same.
      * destruct (Hall _ _ Hin) as (Hr & l0 & val0 & v0 & Ha & Hb & Hc & Hd).
        split; [ lia | ]. exists l0, val0, v0. repeat split; auto.
        rewrite get_set_other; [ assumption | congruence ].
    + injection Hp as <-. apply parse_inv_weaken with (2 := Hinv).
      rewrite length_app. simpl. lia.
Qed.

(** What [_parse_inp_file] leaves behind. *)
Lemma parse_inp_file_inv content self :
  parse_inp_file literal_eval content = Ok self ->
  inp_file self = readlines content /\
  NoDup (keys (map_args self)) /\
  NoDup (map snd (map_args self)) /\
  forall k id, In (k, id) (map_args self) ->
    (1 <= id <= Z.of_nat (length (readlines content)))%Z /\
    exists line val v,
      nth_error (readlines content) (Z.to_nat (id - 1)) = Some line /\
      parse_line line = Ok (Assignment k val) /\
      typed_value literal_eval val = Ok v /\
      get (attrs self) k = Some v.
Proof.
  unfold parse_inp_file. intros H.
  destruct (parse_lines literal_eval (readlines content) 0 [] []) as [pm | ] eqn:Hp;
    [ | discriminate ].
  simpl in H. injection H as <-. simpl.
  destruct (@parse_lines_inv (readlines content) [] [] [] pm Hp) as (Hk & Hm & Hv & Hall).
  { repeat split; try constructor; contradiction. }
  simpl in *. split; [ reflexivity | ]. split; [ assumption | ]. split; [ assumption | ].
  intros k id Hin. destruct (Hall _ _ Hin) as (Hr & l0 & val0 & v0 & Ha & Hb & Hc & Hd).
  split; [ assumption | ]. exists l0, val0, v0. repeat split; auto.
  rewrite get_dict_to_args by assumption. now rewrite Hd.
Qed.

Lemma wf_store_setattr c (a : dict (pyobj lit)) margs k v :
  wf_store c a margs -> wf_store c (set a k v) margs.
Proof.
  intros [Hnd Hall]. split; [ assumption | ].
  intros k' id Hin. destruct (Hall _ _ Hin) as [Hr Hg]. split; [ assumption | ].
  destruct (list_eq_dec ascii_dec k k') as [-> | Hne].
  - rewrite get_set_same. discriminate.
  - now rewrite get_set_other.
Qed.

Lemma parse_wf_store content self :
  parse_inp_file literal_eval content = Ok self ->
  wf_store (inp_file self) (attrs self) (map_args self).
Proof.
  intros H. destruct (@parse_inp_file_inv content self H) as (Hf & _ & Hnd & Hall).
  split; [ assumption | ]. intros k id Hin.
  destruct (Hall _ _ Hin) as (Hr & l0 & val0 & v0 & _ & _ & _ & Hd).
  rewrite Hf. split; [ assumption | congruence ].
Qed.

End Store.

Section SplitFacts.
Variable sep : ascii.

Lemma split_nonempty s : split sep s <> [].
Proof.
  destruct s as [ | c r ]; simpl; [ discriminate | ].
  destruct (Ascii.eqb c sep); [ discriminate | ].
  destruct (split sep r); discriminate.
Qed.

Lemma join_split s : join sep (split sep s) = s.
Proof.
  induction s as [ | c r IH ]; simpl; [ reflexivity | ].
  destruct (Ascii.eqb c sep) eqn:E.
  - apply Ascii.eqb_eq in E. subst c.
    pose proof (split_nonempty r) as Hne.
    destruct (split sep r) as [ | p ps ]; [ contradiction | ].
    simpl in *. now rewrite IH.
  - pose proof (split_nonempty r) as Hne.
    destruct (split sep r) as [ | p ps ]; [ contradiction | ].
    destruct ps; simpl in *; now rewrite <- IH.
Qed.

Lemma split_pieces s : Forall (fun p => contains sep p = false) (split sep s).
Proof.
  induction s as [ | c r IH ]; simpl.
  - repeat constructor.
  - destruct (Ascii.eqb c sep) eqn:E.
    + constructor; [ reflexivity | assumption ].
    + destruct (split sep r) as [ | p ps ]; [ repeat constructor; simpl | ].
      * rewrite Ascii.eqb_sym. now rewrite E.
      * inversion IH; subst. constructor; [ | assumption ].
        simpl. rewrite Ascii.eqb_sym, E. assumption.
Qed.

Lemma split_no_sep s : contains sep s = false -> split sep s = [s].
Proof.
  induction s as [ | c r IH ]; simpl; [ reflexivity | ].
  rewrite Ascii.eqb_sym. destruct (Ascii.eqb c sep); simpl; [ discriminate | ].
  intros H. now rewrite IH.
Qed.

Lemma join_cons p (ps : list text) :
  ps <> [] -> join sep (p :: ps) = p ++ sep :: join sep ps.
Proof. destruct ps; [ contradiction | reflexivity ]. Qed.

Lemma join_removelast (l : list text) :
  (2 <= length l)%nat ->
  join sep l = join sep (removelast l) ++ sep :: last l [].
Proof.
  induction l as [ | p ps IH ]; simpl length; [ lia | ].
  intros Hlen. destruct ps as [ | q qs ]; [ simpl in Hlen; lia | ].
  destruct qs as [ | r rs ]; [ reflexivity | ].
  rewrite join_cons by discriminate.
  rewrite IH by (simpl; lia).
  change (removelast (p :: q :: r :: rs)) with (p :: q :: removelast (r :: rs)).
  change (removelast (q :: r :: rs)) with (q :: removelast (r :: rs)).
  rewrite (join_cons p) by discriminate.
  change (last (p :: q :: r :: rs) []) with (last (q :: r :: rs) []).
  now rewrite <- app_assoc.
Qed.

Lemma split_length s : contains sep s = true -> (2 <= length (split sep s))%nat.
Proof.
  induction s as [ | c r IH ]; simpl; [ discriminate | ].
  rewrite Ascii.eqb_sym. destruct (Ascii.eqb c sep); simpl.
  - intros _. pose proof (split_nonempty r). destruct (split sep r); simpl; [ contradiction | lia ].
  - intros H. specialize (IH H). destruct (split sep r); simpl in *; lia.
Qed.

(** A line that holds the separator is its text before the last one, the
    separator, and a suffix without it. *)
Lemma last_sep_decompose s :
  contains sep s = true ->
  s = join sep (removelast (split sep s)) ++ sep :: last (split sep s) [] /\
  contains sep (last (split sep s) []) = false.
Proof.
  intros H. split.
  - rewrite <- join_removelast by now apply split_length.
    symmetry. apply join_split.
  - pose proof (split_pieces s) as Hf. pose proof (split_nonempty s) as Hne.
    rewrite Forall_forall in Hf. apply Hf.
    destruct (exists_last Hne) as (l' & x & ->). rewrite last_last.
    apply in_or_app. right. now left.
Qed.
End SplitFacts.

Lemma keys_unique (V : Type) (d : dict V) k v v' :
  NoDup (keys d) -> In (k, v) d -> In (k, v') d -> v = v'.
Proof.
  induction d as [ | [k0 v0] r IH ]; simpl; intros Hnd H1 H2; [ contradiction | ].
  inversion Hnd as [ | ? ? Hnot Hnd' ]; subst.
  destruct H1 as [H1 | H1], H2 as [H2 | H2].
  - congruence.
  - inversion H1; subst. exfalso. apply Hnot. now apply (in_map fst) in H2.
  - inversion H2; subst. exfalso. apply Hnot. now apply (in_map fst) in H1.
  - auto.
Qed.

Section Roundtrip.
Variable lit : Type.
Variable literal_eval : text -> eval_result (pyobj lit).
Variable str_lit : lit -> text.



End Roundtrip.





End RegistryFacts.

(* ===================================================================== *)
(** ** Facts about method calls *)

Module MonadFacts.
Import PyStr Workflow Denise.

Section Calls.
Variable value : Type.

Lemma value_of_bind (A B : Type) (m : M value A) (f : A -> M value B) self :
  value_of (bind m f self) =
  match value_of (m self) with
  | Ok a => value_of (f a (final (m self)))
  | Raise e => Raise e
  end.
Proof. unfold bind. now destruct (value_of (m self)). Qed.

Lemma final_bind_ok (A B : Type) (m : M value A) (f : A -> M value B) self a :
  value_of (m self) = Ok a ->
  final (bind m f self) = final (f a (final (m self))).
Proof. unfold bind. now intros ->. Qed.

Lemma final_bind_raise (A B : Type) (m : M value A) (f : A -> M value B) self e :
  value_of (m self) = Raise e ->
  final (bind m f self) = final (m self).
Proof. unfold bind. now intros ->. Qed.

Lemma events_bind_ok (A B : Type) (m : M value A) (f : A -> M value B) self a :
  value_of (m self) = Ok a ->
  events (bind m f self) = events (m self) ++ events (f a (final (m self))).
Proof. unfold bind. now intros ->. Qed.

Lemma events_bind_raise (A B : Type) (m : M value A) (f : A -> M value B) self e :
  value_of (m self) = Raise e ->
  events (bind m f self) = events (m self).
Proof. unfold bind. now intros ->. Qed.

Lemma value_of_print_1 line (self : Denise value) :
  value_of (print_1 line self) = Ok tt.
Proof. unfold print_1, bind, read, print, emit, ret. simpl. now destruct (verbose self =? 1)%Z. Qed.

Lemma final_print_1 line (self : Denise value) : final (print_1 line self) = self.
Proof. unfold print_1, bind, read, print, emit, ret. simpl. now destruct (verbose self =? 1)%Z. Qed.

Lemma value_of_print_2 line (self : Denise value) :
  value_of (print_2 line self) = Ok tt.
Proof. unfold print_2, bind, read, print, emit, ret. simpl. now destruct (verbose self =? 2)%Z. Qed.

Lemma final_print_2 line (self : Denise value) : final (print_2 line self) = self.
Proof. unfold print_2, bind, read, print, emit, ret. simpl. now destruct (verbose self =? 2)%Z. Qed.

Lemma value_of_read (A : Type) (f : Denise value -> A) self :
  value_of (read f self) = Ok (f self).
Proof. reflexivity. Qed.

Lemma final_read (A : Type) (f : Denise value -> A) self : final (read f self) = self.
Proof. reflexivity. Qed.

Lemma value_of_lift (A : Type) (r : result A) (self : Denise value) :
  value_of (lift r self) = r.
Proof. reflexivity. Qed.

Lemma final_lift (A : Type) (r : result A) (self : Denise value) :
  final (lift r self) = self.
Proof. reflexivity. Qed.

Lemma value_of_ret (A : Type) (a : A) (self : Denise value) :
  value_of (ret a self) = Ok a.
Proof. reflexivity. Qed.

Lemma value_of_modify (f : Denise value -> Denise value) self :
  value_of (modify f self) = Ok tt.
Proof. reflexivity. Qed.

Lemma final_modify (f : Denise value -> Denise value) self :
  final (modify f self) = f self.
Proof. reflexivity. Qed.

Lemma value_of_emit (e : event value) self : value_of (emit e self) = Ok tt.
Proof. reflexivity. Qed.

Lemma final_emit (e : event value) self : final (emit e self) = self.
Proof. reflexivity. Qed.

Lemma events_read (A : Type) (f : Denise value -> A) self : events (read f self) = [].
Proof. reflexivity. Qed.

Lemma events_lift (A : Type) (r : result A) (self : Denise value) :
  events (lift r self) = [].
Proof. reflexivity. Qed.

Lemma events_modify (f : Denise value -> Denise value) self :
  events (modify f self) = [].
Proof. reflexivity. Qed.

Lemma events_emit (e : event value) self : events (emit e self) = [e].
Proof. reflexivity. Qed.

Lemma events_print_1 line (self : Denise value) :
  events (print_1 line self) = if (verbose self =? 1)%Z then [Print line] else [].
Proof. unfold print_1, bind, read, print, emit, ret. simpl. now destruct (verbose self =? 1)%Z. Qed.

Lemma events_print_2 line (self : Denise value) :
  events (print_2 line self) = if (verbose self =? 2)%Z then [Print line] else [].
Proof. unfold print_2, bind, read, print, emit, ret. simpl. now destruct (verbose self =? 2)%Z. Qed.

Lemma quiet_bind (A B : Type) (m : M value A) (f : A -> M value B) :
  quiet m -> (forall a, quiet (f a)) -> quiet (bind m f).
Proof.
  intros Hm Hf self. unfold bind. destruct (value_of (m self)) as [a | e]; simpl.
  - apply Forall_app. split; [ apply Hm | apply Hf ].
  - apply Hm.
Qed.

Lemma quiet_ret (A : Type) (a : A) : quiet (ret (value:=value) a).
Proof. intros self. constructor. Qed.

Lemma quiet_raise (A : Type) (e : exn) : quiet (raise (value:=value) (A:=A) e).
Proof. intros self. constructor. Qed.

Lemma quiet_read (A : Type) (f : Denise value -> A) : quiet (read f).
Proof. intros self. constructor. Qed.

Lemma quiet_lift (A : Type) (r : result A) : quiet (lift (value:=value) r).
Proof. intros self. constructor. Qed.

Lemma quiet_modify (f : Denise value -> Denise value) : quiet (modify f).
Proof. intros self. constructor. Qed.

Lemma quiet_print (line : list (fragment value)) : quiet (print line).
Proof. intros self. repeat constructor. Qed.

Lemma quiet_print_1 (line : list (fragment value)) : quiet (print_1 line).
Proof.
  intros self. rewrite events_print_1.
  destruct (verbose self =? 1)%Z; repeat constructor.
Qed.

Lemma quiet_makedirs (path : text) : quiet (emit (value:=value) (Makedirs path)).
Proof. intros self. repeat constructor. Qed.

Lemma quiet_for_each (A : Type) (l : list A) (body : A -> M value unit) :
  (forall x, quiet (body x)) -> quiet (for_each l body).
Proof.
  intros Hb. induction l as [ | x r IH ]; simpl.
  - apply quiet_ret.
  - apply quiet_bind; [ apply Hb | intros _; exact IH ].
Qed.

Lemma aborted_bind (A B : Type) (m : M value A) (f : A -> M value B) self :
  Forall (@no_output value) (events (m self)) ->
  (forall a, value_of (m self) = Ok a -> aborted (f a (final (m self)))) ->
  aborted (bind m f self).
Proof.
  intros Hq Hf. unfold aborted, bind.
  destruct (value_of (m self)) as [a | e]; simpl.
  - destruct (Hf a eq_refl) as [Hq' He]. split; [ | exact He ].
    apply Forall_app. now split.
  - split; [ exact Hq | now exists e ].
Qed.

Lemma aborted_bind_l (A B : Type) (m : M value A) (f : A -> M value B) self :
  aborted (m self) -> aborted (bind m f self).
Proof.
  intros [Hq [e He]]. unfold aborted, bind. rewrite He. simpl.
  split; [ exact Hq | now exists e ].
Qed.

Lemma aborted_prepend (A : Type) (l : list (event value)) (o : outcome value A) :
  Forall (@no_output value) l -> aborted o -> aborted (prepend l o).
Proof.
  intros Hl [Hq He]. split; [ | exact He ].
  simpl. apply Forall_app. now split.
Qed.

Lemma stateless_bind (A B : Type) (m : M value A) (f : A -> M value B) :
  stateless m -> (forall a, stateless (f a)) -> stateless (bind m f).
Proof.
  intros Hm Hf self. unfold bind. destruct (value_of (m self)); simpl.
  - now rewrite Hf, Hm.
  - apply Hm.
Qed.

Lemma stateless_print_1 (line : list (fragment value)) : stateless (print_1 line).
Proof. intros self. apply final_print_1. Qed.

Lemma stateless_read (A : Type) (f : Denise value -> A) : stateless (read f).
Proof. intros self. reflexivity. Qed.

Lemma stateless_lift (A : Type) (r : result A) : stateless (lift (value:=value) r).
Proof. intros self. reflexivity. Qed.

Lemma stateless_ret (A : Type) (a : A) : stateless (ret (value:=value) a).
Proof. intros self. reflexivity. Qed.

Lemma stateless_raise (A : Type) (e : exn) : stateless (raise (value:=value) (A:=A) e).
Proof. intros self. reflexivity. Qed.

Lemma stateless_emit (e : event value) : stateless (emit e).
Proof. intros self. reflexivity. Qed.

Lemma stateless_for_each (A : Type) (l : list A) (body : A -> M value unit) :
  (forall x, stateless (body x)) -> stateless (for_each l body).
Proof.
  intros Hb. induction l as [ | x r IH ]; simpl.
  - apply stateless_ret.
  - apply stateless_bind; [ apply Hb | intros _; exact IH ].
Qed.

Lemma prepend_nil (A : Type) (o : outcome value A) : prepend [] o = o.
Proof. now destruct o. Qed.

Lemma prepend_prepend (A : Type) (l l' : list (event value)) (o : outcome value A) :
  prepend l (prepend l' o) = prepend (l ++ l') o.
Proof. unfold prepend. simpl. now rewrite app_assoc. Qed.

Lemma bind_read (A B : Type) (g : Denise value -> A) (f : A -> M value B) self :
  bind (read g) f self = f (g self) self.
Proof. unfold bind, read. simpl. now destruct (f (g self) self). Qed.

Lemma bind_ret (A B : Type) (a : A) (f : A -> M value B) self :
  bind (ret a) f self = f a self.
Proof. unfold bind, ret. simpl. now destruct (f a self). Qed.

Lemma bind_modify (B : Type) (g : Denise value -> Denise value) (f : unit -> M value B) self :
  bind (modify g) f self = f tt (g self).
Proof. unfold bind, modify. simpl. now destruct (f tt (g self)). Qed.

Lemma bind_lift_ok (A B : Type) (a : A) (f : A -> M value B) self :
  bind (lift (Ok a)) f self = f a self.
Proof. unfold bind, lift. simpl. now destruct (f a self). Qed.

Lemma bind_lift_raise (A B : Type) (e : exn) (f : A -> M value B) self :
  bind (lift (Raise e)) f self =
  {| events := []; final := self; value_of := Raise e |}.
Proof. reflexivity. Qed.

Lemma bind_emit (B : Type) (e : event value) (f : unit -> M value B) self :
  bind (emit e) f self = prepend [e] (f tt self).
Proof. reflexivity. Qed.

Lemma bind_print (B : Type) line (f : unit -> M value B) self :
  bind (print line) f self = prepend [Print line] (f tt self).
Proof. reflexivity. Qed.

Lemma bind_assoc (A B C : Type) (m : M value A) (g : A -> M value B)
    (f : B -> M value C) self :
  bind (bind m g) f self = bind m (fun x => bind (g x) f) self.
Proof.
  unfold bind. destruct (value_of (m self)) as [a | e]; simpl; [ | reflexivity ].
  destruct (value_of (g a (final (m self)))) as [b | e]; simpl; [ | reflexivity ].
  now rewrite app_assoc.
Qed.

Lemma bind_print_1 (B : Type) line (f : unit -> M value B) self :
  bind (print_1 line) f self =
  prepend (if (verbose self =? 1)%Z then [Print line] else []) (f tt self).
Proof.
  unfold print_1. rewrite bind_assoc, bind_read.
  destruct (verbose self =? 1)%Z; unfold bind, print, emit, ret, prepend, read; simpl.
  - reflexivity.
  - now destruct (f tt self).
Qed.

Lemma bind_print_2 (B : Type) line (f : unit -> M value B) self :
  bind (print_2 line) f self =
  prepend (if (verbose self =? 2)%Z then [Print line] else []) (f tt self).
Proof.
  unfold print_2. rewrite bind_assoc, bind_read.
  destruct (verbose self =? 2)%Z; unfold bind, print, emit, ret, prepend, read; simpl.
  - reflexivity.
  - now destruct (f tt self).
Qed.

Lemma print_1_outcome line (self : Denise value) :
  print_1 line self =
  {| events := if (verbose self =? 1)%Z then [Print line] else [];
     final := self; value_of := Ok tt |}.
Proof.
  unfold print_1, bind, read, print, emit, ret. simpl.
  now destruct (verbose self =? 1)%Z.
Qed.

Lemma bind_known (A B : Type) (m : M value A) (f : A -> M value B) self ev s' a :
  m self = {| events := ev; final := s'; value_of := Ok a |} ->
  bind m f self = prepend ev (f a s').
Proof. unfold bind. now intros ->. Qed.

Lemma for_each_emit (A : Type) (l : list A) (g : A -> event value) self :
  for_each l (fun x => emit (g x)) self =
  {| events := map g l; final := self; value_of := Ok tt |}.
Proof.
  induction l as [ | x r IH ]; simpl; [ reflexivity | ].
  rewrite bind_emit, IH. reflexivity.
Qed.

Lemma bind_ok (A B : Type) (m : M value A) (f : A -> M value B) self a :
  value_of (m self) = Ok a ->
  bind m f self = prepend (events (m self)) (f a (final (m self))).
Proof. unfold bind. now intros ->. Qed.

Lemma bind_raise (A B : Type) (m : M value A) (f : A -> M value B) self e :
  value_of (m self) = Raise e ->
  bind m f self =
  {| events := events (m self); final := final (m self); value_of := Raise e |}.
Proof. unfold bind. now intros ->. Qed.

Lemma makedirs_outcome (path : text) (self : Denise value) :
  makedirs path self =
  {| events := [Makedirs path];
     final := with_directories (made (locate path) ++ directories self) self;
     value_of := Ok tt |}.
Proof. reflexivity. Qed.

Lemma quiet_makedirs_call (path : text) : quiet (makedirs (value:=value) path).
Proof. intros self. rewrite makedirs_outcome. repeat constructor. Qed.

(** A file that can be opened is written. *)
Lemma write_file_ok (path : text) (content : payload) (self : Denise value) :
  open_error (directories self) path = None ->
  write_file path content self =
  {| events := [FileWrite path content]; final := self; value_of := Ok tt |}.
Proof.
  intros H. unfold write_file, open_file. rewrite bind_assoc, bind_read, H.
  now rewrite bind_ret.
Qed.

Lemma append_file_ok (path : text) (content : payload) (self : Denise value) :
  open_error (directories self) path = None ->
  append_file path content self =
  {| events := [FileAppend path content]; final := self; value_of := Ok tt |}.
Proof.
  intros H. unfold append_file, open_file. rewrite bind_assoc, bind_read, H.
  now rewrite bind_ret.
Qed.

(** A file that cannot be opened is not written: the call raises. *)
Lemma write_file_raises (path : text) (content : payload) (self : Denise value) e :
  open_error (directories self) path = Some e ->
  write_file path content self =
  {| events := []; final := self; value_of := Raise e |}.
Proof.
  intros H. unfold write_file, open_file. rewrite bind_assoc, bind_read, H.
  reflexivity.
Qed.

Lemma append_file_raises (path : text) (content : payload) (self : Denise value) e :
  open_error (directories self) path = Some e ->
  append_file path content self =
  {| events := []; final := self; value_of := Raise e |}.
Proof.
  intros H. unfold append_file, open_file. rewrite bind_assoc, bind_read, H.
  reflexivity.
Qed.

Lemma stateless_write_file (path : text) (content : payload) :
  stateless (write_file (value:=value) path content).
Proof.
  intros self. destruct (open_error (directories self) path) as [e | ] eqn:E.
  - now rewrite (write_file_raises _ _ _ E).
  - now rewrite (write_file_ok _ _ _ E).
Qed.

End Calls.
End MonadFacts.
(* ===================================================================== *)
(** ** Facts about binary64 comparisons and the rounding ladder *)

Module NumericFacts.
Import Float64 Tables Spec.
Local Open Scope float_scope.

(** The order of the specification of binary64 is transitive. *)
Lemma SFleb_trans (x y z : spec_float) :
  SFleb x y = true -> SFleb y z = true -> SFleb x z = true.
Proof.
  unfold SFleb, SFcompare.
  destruct x as [sx | sx | | sx mx ex], y as [sy | sy | | sy my ey],
           z as [sz | sz | | sz mz ez];
    try discriminate; try reflexivity;
    repeat match goal with
           | s : bool |- _ => destruct s
           end;
    try discriminate; try reflexivity; intros H1 H2.
  all: destruct (Z.compare_spec ex ey) as [E1 | E1 | E1]; try discriminate;
       destruct (Z.compare_spec ey ez) as [E2 | E2 | E2]; try discriminate;
       destruct (Z.compare_spec ex ez) as [E3 | E3 | E3]; try lia; try reflexivity;
       subst;
       rewrite ?Pos.compare_cont_spec in *; unfold Pos.switch_Eq in *.
  all: destruct (Pos.compare_spec mx my); try discriminate;
       destruct (Pos.compare_spec my mz); try discriminate;
       destruct (Pos.compare_spec mx mz); simpl in *; try lia; try reflexivity;
       try discriminate.
Qed.

Lemma leb_trans (x y z : float) :
  (x <=? y) = true -> (y <=? z) = true -> (x <=? z) = true.
Proof. rewrite !leb_spec. apply SFleb_trans. Qed.

(** The candidates, as floats, in increasing order. *)
Lemma candidates_ordered :
  (of_Z 10 <=? of_Z 20) = true /\ (of_Z 20 <=? of_Z 25) = true /\
  (of_Z 25 <=? of_Z 50) = true /\ (of_Z 50 <=? of_Z 80) = true.
Proof. repeat split; vm_compute; reflexivity. Qed.

(** The maximum of the endings a mantissa reaches is the first it
    reaches from the top. *)
Lemma select_endings (m : float) :
  np_max_int (map fst (filter snd (combine endings
               (map (fun e => if float_ge_int m e then true else false) endings)))) =
  match ladder m with
  | Some c => Ok c
  | None => Raise ValueError
  end.
Proof.
  unfold endings, ladder, float_ge_int. cbn [map combine].
  destruct (of_Z 10 <=? m), (of_Z 20 <=? m), (of_Z 25 <=? m),
           (of_Z 50 <=? m), (of_Z 80 <=? m); reflexivity.
Qed.

Lemma ladder_in (m : float) (c : Z) : ladder m = Some c -> qualifies m c.
Proof.
  unfold ladder, qualifies, candidates.
  destruct (of_Z 80 <=? m) eqn:E80; [ intros [= <-]; simpl; auto 10 | ].
  destruct (of_Z 50 <=? m) eqn:E50; [ intros [= <-]; simpl; auto 10 | ].
  destruct (of_Z 25 <=? m) eqn:E25; [ intros [= <-]; simpl; auto 10 | ].
  destruct (of_Z 20 <=? m) eqn:E20; [ intros [= <-]; simpl; auto 10 | ].
  destruct (of_Z 10 <=? m) eqn:E10; [ intros [= <-]; simpl; auto 10 | ].
  discriminate.
Qed.

(** The ending selected is the largest candidate not above the
    mantissa. *)
Lemma ladder_largest (m : float) (c : Z) :
  ladder m = Some c -> largest_candidate m c.
Proof.
  intros H. split; [ now apply ladder_in | ].
  intros c' [Hin Hle]. revert H. unfold ladder, candidates in *.
  simpl in Hin.
  destruct (of_Z 80 <=? m) eqn:E80; [ intros [= <-]; lia | ].
  destruct (of_Z 50 <=? m) eqn:E50;
    [ intros [= <-]; destruct Hin as [<- | [<- | [<- | [<- | [<- | []]]]]];
      try lia; congruence | ].
  destruct (of_Z 25 <=? m) eqn:E25;
    [ intros [= <-]; destruct Hin as [<- | [<- | [<- | [<- | [<- | []]]]]];
      try lia; congruence | ].
  destruct (of_Z 20 <=? m) eqn:E20;
    [ intros [= <-]; destruct Hin as [<- | [<- | [<- | [<- | [<- | []]]]]];
      try lia; congruence | ].
  destruct (of_Z 10 <=? m) eqn:E10;
    [ intros [= <-]; destruct Hin as [<- | [<- | [<- | [<- | [<- | []]]]]];
      try lia; congruence | ].
  discriminate.
Qed.

Lemma largest_candidate_unique (m : float) (c c' : Z) :
  largest_candidate m c -> largest_candidate m c' -> c = c'.
Proof.
  intros [H1 H2] [H1' H2']. apply Z.le_antisymm; auto.
Qed.

(** No ending is selected exactly when no candidate qualifies, that is
    when the mantissa does not reach 10. *)
Lemma ladder_none (m : float) :
  ladder m = None <-> no_candidate m.
Proof.
  unfold ladder, no_candidate, candidates. split.
  - destruct (of_Z 80 <=? m) eqn:E80; [ discriminate | ].
    destruct (of_Z 50 <=? m) eqn:E50; [ discriminate | ].
    destruct (of_Z 25 <=? m) eqn:E25; [ discriminate | ].
    destruct (of_Z 20 <=? m) eqn:E20; [ discriminate | ].
    destruct (of_Z 10 <=? m) eqn:E10; [ discriminate | ].
    intros _ c [<- | [<- | [<- | [<- | [<- | []]]]]]; assumption.
  - intros H.
    rewrite (H 80%Z), (H 50%Z), (H 25%Z), (H 20%Z), (H 10%Z); simpl; auto 10.
Qed.

Lemma ladder_none_10 (m : float) :
  ladder m = None <-> (of_Z 10 <=? m) = false.
Proof.
  destruct candidates_ordered as (H12 & H22 & H25 & H58).
  split.
  - intros H. apply ladder_none in H. apply H. simpl. auto.
  - intros H10. unfold ladder.
    assert (H20 : (of_Z 20 <=? m) = false).
    { destruct (of_Z 20 <=? m) eqn:E; [ | reflexivity ].
      now rewrite (@leb_trans (of_Z 10) (of_Z 20) m H12 E) in H10. }
    assert (H25' : (of_Z 25 <=? m) = false).
    { destruct (of_Z 25 <=? m) eqn:E; [ | reflexivity ].
      now rewrite (@leb_trans (of_Z 20) (of_Z 25) m H22 E) in H20. }
    assert (H50 : (of_Z 50 <=? m) = false).
    { destruct (of_Z 50 <=? m) eqn:E; [ | reflexivity ].
      now rewrite (@leb_trans (of_Z 25) (of_Z 50) m H25 E) in H25'. }
    assert (H80 : (of_Z 80 <=? m) = false).
    { destruct (of_Z 80 <=? m) eqn:E; [ | reflexivity ].
      now rewrite (@leb_trans (of_Z 50) (of_Z 80) m H58 E) in H50. }
    now rewrite H80, H50, H25', H20, H10.
Qed.

(** A larger mantissa never selects a smaller ending. *)
Lemma ladder_mono (m m' : float) (c : Z) :
  (m <=? m') = true -> ladder m = Some c ->
  exists c', ladder m' = Some c' /\ (c <= c')%Z.
Proof.
  intros Hm H. destruct (ladder_in _ H) as [Hin Hc].
  pose proof (leb_trans Hc Hm) as Hc'.
  destruct (ladder m') as [c' | ] eqn:E.
  - exists c'. split; [ reflexivity | ].
    apply ladder_largest in E. apply E. split; assumption.
  - apply ladder_none in E. rewrite (E c Hin) in Hc'. discriminate.
Qed.

(** The rounding of [_check_stability], by the ending selected. *)
Lemma round_dt_ladder (np : Numpy) (dt : float) :
  round_dt np dt =
  match ladder (mantissa np (0.99 * dt)) with
  | Some c => Ok (of_Z c * scale np (0.99 * dt))
  | None => Raise ValueError
  end.
Proof.
  unfold round_dt. cbv zeta. fold (scale np (0.99 * dt)).
  fold (mantissa np (0.99 * dt)). rewrite select_endings.
  now destruct (ladder (mantissa np (0.99 * dt))).
Qed.

End NumericFacts.

(* ===================================================================== *)
(** ** Facts about the stability analysis *)

Module StabilityFacts.
Import PyStr Float64 Tables Spec Workflow Denise NumericFacts MonadFacts.
Local Open Scope float_scope.

Lemma fold_abs (row : list float) (a : float) :
  fold_left PrimFloat.add (map PrimFloat.abs row) a =
  fold_left (fun acc c => acc + PrimFloat.abs c) row a.
Proof.
  revert a. induction row as [ | x r IH ]; intros a; simpl; [ reflexivity | apply IH ].
Qed.

(** [np.sum(np.abs(row))] adds the absolute values from left to right. *)
Lemma np_sum_abs (row : list float) : np_sum (map PrimFloat.abs row) = sum_abs row.
Proof. apply fold_abs. Qed.

(** The row the code reads for a class in 0..4 and an operator
    half-length in 1..6 is the row of the documented table. *)
Lemma coefficient_rows (e h : Z) :
  (0 <= e <= 4)%Z -> (1 <= h <= 6)%Z ->
  exists table row,
    hc e = Ok table /\
    getitem table (h - 1) = Ok row /\
    coefficient_row e h = Some row.
Proof.
  intros He Hh.
  assert (E : (e = 0 \/ e = 1 \/ e = 2 \/ e = 3 \/ e = 4)%Z) by lia.
  assert (H : (h = 1 \/ h = 2 \/ h = 3 \/ h = 4 \/ h = 5 \/ h = 6)%Z) by lia.
  destruct E as [-> | [-> | [-> | [-> | ->]]]];
    destruct H as [-> | [-> | [-> | [-> | [-> | ->]]]]];
    eexists; eexists;
    (split; [ reflexivity | split; reflexivity ]).
Qed.

Section Stability.
Variable value : Type.
Variable np : Numpy.

(** The value [_check_stability] returns, without its messages. *)
Lemma check_stability_value (self : Denise value) (maxvp maxvs : float) :
  value_of (check_stability np maxvp maxvs self) =
  match hc (max_relative_error (settings self)) with
  | Ok table =>
      match getitem table (fd_index (FD_ORDER (settings self))) with
      | Ok row =>
          round_dt np (cfl_dt (DH self) (np_sum (map PrimFloat.abs row))
                         (if maxvp <? maxvs then maxvs else maxvp))
      | Raise e => Raise e
      end
  | Raise e => Raise e
  end.
Proof.
  unfold check_stability.
  repeat (rewrite value_of_bind;
          rewrite ?value_of_print_1, ?final_print_1, ?value_of_read, ?final_read;
          cbv beta iota).
  rewrite value_of_lift, final_lift.
  destruct (hc (max_relative_error (settings self))) as [table | ]; [ | reflexivity ].
  rewrite value_of_bind, value_of_lift, final_lift.
  destruct (getitem table (fd_index (FD_ORDER (settings self)))) as [row | ];
    [ | reflexivity ].
  repeat (rewrite value_of_bind;
          rewrite ?value_of_print_1, ?final_print_1, ?value_of_read, ?final_read;
          cbv beta iota).
  rewrite value_of_lift, final_lift.
  destruct (round_dt _ _) as [dt | ]; [ | reflexivity ].
  now rewrite value_of_bind, value_of_print_1.
Qed.

(** The value [_check_stability] returns for a documented row: the
    ending selected for the mantissa of the safe time step, times its
    scale, and a [ValueError] where no ending is selected. *)
Lemma check_stability_rule (self : Denise value) (e h : Z) (maxvp maxvs : float)
    (row : list float) :
  max_relative_error (settings self) = e -> (0 <= e <= 4)%Z ->
  Z.quot (FD_ORDER (settings self)) 2 = h -> (1 <= h <= 6)%Z ->
  coefficient_row e h = Some row ->
  value_of (check_stability np maxvp maxvs self) =
  match ladder (mantissa np (dt_safe row (DH self) maxvp maxvs)) with
  | Some c => Ok (of_Z c * scale np (dt_safe row (DH self) maxvp maxvs))
  | None => Raise ValueError
  end.
Proof.
  intros He Hclass Hq Hlen Hspec.
  destruct (coefficient_rows Hclass Hlen) as (table & row' & Hhc & Hrow & Hspec').
  rewrite Hspec in Hspec'. injection Hspec' as <-.
  rewrite check_stability_value, He, Hhc. unfold fd_index. rewrite Hq, Hrow.
  rewrite np_sum_abs, round_dt_ladder. reflexivity.
Qed.




End Stability.

Section DemoValues.
Import Demo.

(** The time step of the demo input is 0.0025 for a maximum P velocity
    of 3500 and of 3600. *)
Lemma demo_check_stability :
  value_of (check_stability numpy 3500 (3500 / 1.7) demo) = Ok 0.0025 /\
  value_of (check_stability numpy 3600 (3500 / 1.7) demo) = Ok 0.0025.
Proof. repeat apply conj; vm_compute; reflexivity. Qed.

(** The raw CFL time step of the demo input does not change when the
    maximum velocity grows by one unit in the last place. *)
Lemma demo_raw_step_equal :
  (3500 <? 3500.0000000000005) = true /\
  cfl_dt 20 (sum_abs [75 / 64; -25 / 384; 3 / 640; 0; 0; 0]) 3500 =
  cfl_dt 20 (sum_abs [75 / 64; -25 / 384; 3 / 640; 0; 0; 0]) 3500.0000000000005.
Proof. repeat apply conj; vm_compute; reflexivity. Qed.

End DemoValues.







End StabilityFacts.

(* ===================================================================== *)
(** ** Facts about the domain-decomposition check *)

Module DecompositionFacts.
Import PyStr Workflow Denise MonadFacts.
Local Open Scope Z_scope.

Section Decomposition.
Variable value : Type.

Lemma check_value (s : string) (n nproc : Z) (self : Denise value) :
  value_of (check s n nproc self) =
  if nproc =? 0 then Raise ZeroDivisionError
  else if n mod nproc =? 0 then Ok tt
  else Raise (AssertionError (decomp_message s)).
Proof.
  unfold check, py_mod. rewrite value_of_bind, value_of_lift, final_lift.
  destruct (nproc =? 0); [ reflexivity | ].
  rewrite value_of_bind, value_of_print_1, final_print_1.
  now destruct (n mod nproc =? 0).
Qed.

Lemma check_final (s : string) (n nproc : Z) (self : Denise value) :
  final (check s n nproc self) = self.
Proof.
  unfold check. destruct (py_mod n nproc) as [d | e] eqn:E.
  - erewrite final_bind_ok by reflexivity.
    rewrite final_lift.
    erewrite final_bind_ok by apply value_of_print_1.
    rewrite final_print_1. now destruct (d =? 0).
  - erewrite final_bind_raise by reflexivity.
    apply final_lift.
Qed.

Lemma quiet_check (s : string) (n nproc : Z) : quiet (check (value:=value) s n nproc).
Proof.
  unfold check. apply quiet_bind; [ apply quiet_lift | intros decomp ].
  apply quiet_bind; [ apply quiet_print_1 | intros _ ].
  destruct (decomp =? 0); [ apply quiet_ret | apply quiet_raise ].
Qed.

Lemma quiet_check_domain_decomp : quiet (check_domain_decomp (value:=value)).
Proof.
  unfold check_domain_decomp.
  repeat (first [ apply quiet_print_1 | apply quiet_read | apply quiet_check
                | apply quiet_bind; [ | intros ? ] ]).
Qed.

(** The value [_check_domain_decomp] returns: the check in x, then in y. *)
Lemma check_domain_decomp_value (self : Denise value) :
  value_of (check_domain_decomp self) =
  match value_of (check "X" (NX self) (NPROCX (settings self)) self) with
  | Ok _ => value_of (check "Y" (NY self) (NPROCY (settings self)) self)
  | Raise e => Raise e
  end.
Proof.
  unfold check_domain_decomp.
  rewrite value_of_bind, value_of_print_1, final_print_1.
  rewrite value_of_bind, value_of_read, final_read.
  rewrite value_of_bind, value_of_read, final_read.
  rewrite value_of_bind.
  destruct (value_of (check "X" (NX self) (NPROCX (settings self)) self)) eqn:E;
    [ | reflexivity ].
  rewrite check_final.
  rewrite value_of_bind, value_of_read, final_read.
  now rewrite value_of_bind, value_of_read, final_read.
Qed.

(** C3.  For positive grid and process-grid sizes, [_check_domain_decomp]
    succeeds exactly when each grid size is a multiple of its process
    count; otherwise it raises the assertion error of the first
    direction that fails (the decomposition error of the specification). *)
Theorem check_domain_decomp_iff (self : Denise value) :
  0 < NX self -> 0 < NY self ->
  0 < NPROCX (settings self) -> 0 < NPROCY (settings self) ->
  (value_of (check_domain_decomp self) = Ok tt <->
   NX self mod NPROCX (settings self) = 0 /\
   NY self mod NPROCY (settings self) = 0) /\
  (value_of (check_domain_decomp self) <> Ok tt ->
   exists s, (s = "X"%string \/ s = "Y"%string) /\
     value_of (check_domain_decomp self) = Raise (AssertionError (decomp_message s))).
Proof.
  intros Hnx Hny Hpx Hpy.
  rewrite check_domain_decomp_value, !check_value.
  destruct (NPROCX (settings self) =? 0) eqn:Ex; [ apply Z.eqb_eq in Ex; lia | ].
  destruct (NPROCY (settings self) =? 0) eqn:Ey; [ apply Z.eqb_eq in Ey; lia | ].
  destruct (NX self mod NPROCX (settings self) =? 0) eqn:Mx;
    destruct (NY self mod NPROCY (settings self) =? 0) eqn:My;
    rewrite ?Z.eqb_eq, ?Z.eqb_neq in *.
  - split; [ tauto | congruence ].
  - split; [ split; [ discriminate | tauto ] | ].
    intros _. exists "Y"%string. auto.
  - split; [ split; [ discriminate | tauto ] | ].
    intros _. exists "X"%string. auto.
  - split; [ split; [ discriminate | tauto ] | ].
    intros _. exists "X"%string. auto.
Qed.

End Decomposition.

(** [validate(500, 174, 5, 3)] succeeds and [validate(501, 174, 5, 3)]
    fails. *)
Lemma check_domain_decomp_iff_witness :
  value_of (check_domain_decomp Demo.demo) = Ok tt /\
  exists s,
    value_of (check_domain_decomp
                (with_model Demo.demo_model 174 501 20%float Demo.demo)) =
    Raise (AssertionError (decomp_message s)).
Proof.
  split.
  - apply (proj1 (@check_domain_decomp_iff Z Demo.demo
                    ltac:(reflexivity) ltac:(reflexivity)
                    ltac:(reflexivity) ltac:(reflexivity))).
    split; reflexivity.
  - destruct (proj2 (@check_domain_decomp_iff Z
                       (with_model Demo.demo_model 174 501 20%float Demo.demo)
                       ltac:(reflexivity) ltac:(reflexivity)
                       ltac:(reflexivity) ltac:(reflexivity)))
      as (s & _ & Hs).
    + rewrite check_domain_decomp_value, check_value. simpl. discriminate.
    + now exists s.
Defined.

End DecompositionFacts.

(* ===================================================================== *)
(** ** Facts about the dispersion analysis *)

Module DispersionFacts.
Import PyStr Float64 Tables Spec Workflow Denise MonadFacts.
Local Open Scope float_scope.

(** Every accuracy class and half-length has its grid-point count. *)
Lemma gridpoints_lookup (e h : Z) :
  (0 <= e <= 4)%Z -> (1 <= h <= 6)%Z ->
  exists row ppw,
    getitem gridpoints_per_wavelength e = Ok row /\
    getitem row (h - 1) = Ok ppw /\
    points_per_wavelength e h = Some ppw.
Proof.
  intros He Hh.
  assert (E : (e = 0 \/ e = 1 \/ e = 2 \/ e = 3 \/ e = 4)%Z) by lia.
  assert (H : (h = 1 \/ h = 2 \/ h = 3 \/ h = 4 \/ h = 5 \/ h = 6)%Z) by lia.
  destruct E as [-> | [-> | [-> | [-> | ->]]]];
    destruct H as [-> | [-> | [-> | [-> | [-> | ->]]]]];
    eexists; eexists;
    (split; [ reflexivity | split; reflexivity ]).
Qed.

Section Dispersion.
Variable value : Type.

Lemma check_max_frequency_outcome (self : Denise value) (minvs minvp : float)
    (row : list float) (ppw : float) :
  np_min (nonzero (vs (model self))) = Ok minvs ->
  np_min (nonzero (vp (model self))) = Ok minvp ->
  getitem gridpoints_per_wavelength (max_relative_error (settings self)) = Ok row ->
  getitem row (fd_index (FD_ORDER (settings self))) = Ok ppw ->
  check_max_frequency self =
  {| events := if (verbose self =? 1)%Z
               then frequency_messages minvs minvp ppw
                      (v_min minvp minvs / (ppw * DH self))
               else [];
     final := self;
     value_of := Ok tt |}.
Proof.
  intros Hvs Hvp Hrow Hppw. unfold check_max_frequency.
  rewrite bind_read. cbv beta. rewrite Hvs, bind_lift_ok.
  rewrite !bind_print_1. rewrite Hvp, bind_lift_ok.
  rewrite bind_print_1, !bind_read. rewrite Hrow, bind_lift_ok.
  rewrite Hppw, bind_lift_ok. rewrite bind_print_1, bind_read, bind_print_1.
  unfold v_min, ret, prepend, frequency_messages. simpl.
  now destruct (verbose self =? 1)%Z.
Qed.

Lemma quiet_check_max_frequency : quiet (check_max_frequency (value:=value)).
Proof.
  unfold check_max_frequency.
  repeat (first [ apply quiet_print_1 | apply quiet_read | apply quiet_lift
                | apply quiet_ret | apply quiet_bind; [ | intros ? ] ]).
Qed.

Lemma stateless_check_max_frequency : stateless (check_max_frequency (value:=value)).
Proof.
  unfold check_max_frequency.
  repeat (first [ apply stateless_print_1 | apply stateless_read | apply stateless_lift
                | apply stateless_ret | apply stateless_bind; [ | intros ? ] ]).
Qed.

(** C8 (amended).  For an accuracy class in 0..4 and an operator
    half-length in 1..6, with [min_vp] and [min_vs] the least nonzero
    velocities of the model, [_check_max_frequency] computes
    [fmax = min(min_vp, min_vs) / (points_per_wavelength * grid_spacing)]
    with the table entry of that class and half-length, and prints it when
    the verbosity is 1; it returns no value, leaves the object unchanged
    and emits nothing else. *)
Theorem check_max_frequency_reports (self : Denise value)
    (accuracy_class operator_half_length : Z) (min_vp min_vs : float) :
  max_relative_error (settings self) = accuracy_class ->
  (0 <= accuracy_class <= 4)%Z ->
  Z.quot (FD_ORDER (settings self)) 2 = operator_half_length ->
  (1 <= operator_half_length <= 6)%Z ->
  np_min (nonzero (vp (model self))) = Ok min_vp ->
  np_min (nonzero (vs (model self))) = Ok min_vs ->
  exists ppw,
    points_per_wavelength accuracy_class operator_half_length = Some ppw /\
    value_of (check_max_frequency self) = Ok tt /\
    final (check_max_frequency self) = self /\
    (verbose self = 1%Z ->
     In (Print [FText (tab :: txt "Maximum source wavelet frequency = ");
                FFloat (documented_fmax ppw (DH self) min_vp min_vs);
                FText (txt " Hz")])
        (events (check_max_frequency self))) /\
    (verbose self <> 1%Z -> events (check_max_frequency self) = []) /\
    Forall (fun e => exists line, e = Print line) (events (check_max_frequency self)).
Proof.
  intros He Hclass Hq Hlen Hvp Hvs.
  destruct (gridpoints_lookup Hclass Hlen) as (row & ppw & Hrow & Hppw & Hspec).
  assert (Hout := @check_max_frequency_outcome self min_vs min_vp row ppw Hvs Hvp).
  rewrite He in Hout. unfold fd_index in Hout. rewrite Hq in Hout.
  specialize (Hout Hrow Hppw). rewrite Hout. simpl.
  exists ppw. split; [ exact Hspec | ]. split; [ reflexivity | ].
  split; [ reflexivity | ]. split; [ | split ].
  - intros ->. simpl. unfold documented_fmax. auto 10.
  - intros Hv. apply Z.eqb_neq in Hv. now rewrite Hv.
  - destruct (verbose self =? 1)%Z; unfold frequency_messages;
      repeat constructor; eexists; reflexivity.
Qed.

End Dispersion.

Section DemoFrequency.
Import Demo.

Lemma demo_min_vp : np_min (nonzero (vp demo_model)) = Ok 3500.
Proof. vm_compute. reflexivity. Qed.

Lemma demo_min_vs : np_min (nonzero (vs demo_model)) = Ok (3500 / 1.7).
Proof. vm_compute. reflexivity. Qed.

Lemma demo_check_max_frequency :
  check_max_frequency demo =
  {| events := frequency_messages (value:=Z) (3500 / 1.7) 3500 6.0
                 (v_min 3500 (3500 / 1.7) / (6.0 * 20));
     final := demo;
     value_of := Ok tt |}.
Proof.
  rewrite (@check_max_frequency_outcome Z demo (3500 / 1.7) 3500
             [23.0; 8.0; 6.0; 5.0; 5.0; 4.0] 6.0
             demo_min_vs demo_min_vp eq_refl eq_refl).
  reflexivity.
Qed.

End DemoFrequency.

Lemma check_max_frequency_reports_witness :
  exists ppw,
    points_per_wavelength 0 3 = Some ppw /\
    ppw = 6.0 /\
    In (Print [FText (tab :: txt "Maximum source wavelet frequency = ");
               FFloat (documented_fmax ppw 20 3500 (3500 / 1.7));
               FText (txt " Hz")])
       (events (check_max_frequency Demo.demo)).
Proof.
  destruct (@check_max_frequency_reports Z Demo.demo 0 3 3500 (3500 / 1.7)
              eq_refl ltac:(lia) eq_refl ltac:(lia) demo_min_vp demo_min_vs)
    as (ppw & Hspec & _ & _ & Hin & _).
  exists ppw. split; [ exact Hspec | ]. split.
  - unfold points_per_wavelength in Hspec. simpl in Hspec. now injection Hspec as <-.
  - apply Hin. reflexivity.
Defined.

(** C8 (as stated) fails: the call returns no value; the frequency is
    only part of a printed message. *)
Lemma check_max_frequency_returns_nothing :
  value_of (check_max_frequency Demo.demo) = Ok tt /\
  final (check_max_frequency Demo.demo) = Demo.demo /\
  Forall (fun e => exists line, e = Print line)
         (events (check_max_frequency Demo.demo)).
Proof.
  rewrite demo_check_max_frequency. simpl. split; [ reflexivity | ].
  split; [ reflexivity | ].
  repeat constructor; eexists; reflexivity.
Qed.

End DispersionFacts.

(* ===================================================================== *)
(** ** Facts about the runs: [_engine], [forward], [fwi] *)

Module RunFacts.
Import PyStr PyDict Float64 Tables Spec Workflow Denise MonadFacts
       DecompositionFacts DispersionFacts.

Lemma lstrip_app_space (x : text) (c : ascii) :
  is_space c = true ->
  lstrip (x ++ [c]) = match lstrip x with
                      | [] => []
                      | _ => lstrip x ++ [c]
                      end.
Proof.
  intros Hc. induction x as [ | d r IH ]; simpl.
  - now rewrite Hc.
  - destruct (is_space d); [ exact IH | reflexivity ].
Qed.

Lemma rstrip_app_space (y : text) (c : ascii) :
  is_space c = true -> rstrip (y ++ [c]) = rstrip y.
Proof.
  intros Hc. unfold rstrip. rewrite rev_app_distr. simpl. now rewrite Hc.
Qed.

(** A trailing newline does not survive [strip]. *)
Lemma strip_app_space (x : text) (c : ascii) :
  is_space c = true -> strip (x ++ [c]) = strip x.
Proof.
  intros Hc. unfold strip. rewrite (@lstrip_app_space x c Hc).
  destruct (lstrip x) as [ | d r ] eqn:E; [ reflexivity | ].
  now apply (@rstrip_app_space (d :: r) c).
Qed.

Lemma map_removelast_last (A B : Type) (f : A -> B) (g : A -> A) (l : list A) (d : A) :
  l <> [] -> (forall x, f (g x) = f x) ->
  map f (removelast l ++ [g (last l d)]) = map f l.
Proof.
  intros Hne Hg. induction l as [ | x r IH ]; [ contradiction | ].
  destruct r as [ | y r' ].
  - simpl. now rewrite Hg.
  - change (removelast (x :: y :: r')) with (x :: removelast (y :: r')).
    change (last (x :: y :: r') d) with (last (y :: r') d).
    rewrite <- app_comm_cons.
    change (map f (x :: ?l)) with (f x :: map f l).
    rewrite IH by discriminate. reflexivity.
Qed.

Section Runs.
Variable value : Type.
Variable str : value -> text.
Variable np : Numpy.

Lemma no_output_makedirs (A : Type) (g : A -> text) (l : list A) :
  Forall (@no_output value) (map (fun x => Makedirs (g x)) l).
Proof. induction l; simpl; constructor; simpl; auto. Qed.

Lemma with_directories_same (self : Denise value) :
  with_directories (directories self) self = self.
Proof. now destruct self. Qed.

(** A loop of [os.makedirs]: the calls, and directories only are new. *)
Lemma for_each_makedirs (A : Type) (g : A -> text) (l : list A) (self : Denise value) :
  exists dirs,
    for_each l (fun x => makedirs (g x)) self =
    {| events := map (fun x => Makedirs (g x)) l;
       final := with_directories dirs self;
       value_of := Ok tt |}.
Proof.
  revert self. induction l as [ | x r IH ]; intros self.
  - exists (directories self). simpl. now rewrite with_directories_same.
  - cbn [for_each].
    destruct (IH (with_directories (made (locate (g x)) ++ directories self) self))
      as [dirs Hd].
    exists dirs. erewrite bind_known by apply makedirs_outcome.
    rewrite Hd. reflexivity.
Qed.

(** [set_paths(makedirs=True)]: the folders, then the path attributes. *)
Lemma set_paths_outcome (self : Denise value) :
  exists dirs p,
    set_paths true self =
    {| events := map (fun f => Makedirs (path_join (save_folder self) (f ++ txt "/")))
                     folders;
       final := with_paths p (with_directories dirs self);
       value_of := Ok tt |}.
Proof.
  destruct (for_each_makedirs
              (fun f => path_join (save_folder self) (f ++ txt "/")) folders self)
    as [dirs Hd].
  exists dirs. eexists. unfold set_paths. rewrite bind_assoc, bind_read.
  unfold create_folders. erewrite bind_known by exact Hd.
  unfold modify, prepend. cbn [events final value_of]. rewrite app_nil_r. reflexivity.
Qed.

(** [_engine] up to its checks: folders, attribute assignments, the
    frequency analysis, the decomposition check, and the rest. *)
Lemma engine_prefix (self : Denise value) (m : Model) (src : Sources)
    (rec : Receivers) (run_command : option text) (disable : bool) :
  exists dirs p k,
    engine np m src rec run_command disable self =
    prepend (map (fun f => Makedirs (path_join (save_folder self) (f ++ txt "/")))
                 folders)
      (bind check_max_frequency (fun _ => bind check_domain_decomp k)
         (checked_object (with_directories dirs self) m src rec p)).
Proof.
  destruct (set_paths_outcome self) as (dirs & p & Hp). exists dirs, p. eexists.
  unfold engine. erewrite bind_known by exact Hp.
  unfold set_model. rewrite !bind_modify. reflexivity.
Qed.

Lemma check_domain_decomp_raises (self : Denise value) :
  (NX self mod NPROCX (settings self) <> 0 \/
   NY self mod NPROCY (settings self) <> 0)%Z ->
  exists e, value_of (check_domain_decomp self) = Raise e.
Proof.
  intros H. rewrite check_domain_decomp_value, !check_value.
  destruct (NPROCX (settings self) =? 0)%Z; [ eauto | ].
  destruct (NX self mod NPROCX (settings self) =? 0)%Z eqn:Mx; [ | eauto ].
  destruct (NPROCY (settings self) =? 0)%Z; [ eauto | ].
  destruct (NY self mod NPROCY (settings self) =? 0)%Z eqn:My; [ | eauto ].
  apply Z.eqb_eq in Mx, My. tauto.
Qed.

(** When the grid of the model does not divide, [_engine] raises before
    it writes a file or starts the solver. *)
Lemma engine_aborted (self : Denise value) (m : Model) (src : Sources)
    (rec : Receivers) (run_command : option text) (disable : bool) :
  (snd (shape (vp m)) mod NPROCX (settings self) <> 0 \/
   fst (shape (vp m)) mod NPROCY (settings self) <> 0)%Z ->
  aborted (engine np m src rec run_command disable self).
Proof.
  intros H.
  destruct (engine_prefix self m src rec run_command disable) as (dirs & p & k & ->).
  apply aborted_prepend; [ apply no_output_makedirs | ].
  apply aborted_bind; [ apply quiet_check_max_frequency | intros _ _ ].
  rewrite stateless_check_max_frequency. apply aborted_bind_l.
  split; [ apply quiet_check_domain_decomp | ].
  apply check_domain_decomp_raises. exact H.
Qed.

(** The stage loop of [fwi], where the workflow file can be opened. *)
Lemma stage_loop_outcome (self : Denise value) (ps : list (nat * stage value)) :
  open_error (directories self) (filename_workflow (paths self)) = None ->
  for_each ps
    (fun i_stage =>
       bind (print_2 [FText (tab :: txt "write FWI stage ");
                      FInt (Z.of_nat (fst i_stage)); FText (txt ":");
                      FStage (snd i_stage)])
            (fun _ => write_denise_workflow str (snd i_stage))) self =
  {| events :=
       flat_map
         (fun i_stage =>
            (if (verbose self =? 2)%Z
             then [Print [FText (tab :: txt "write FWI stage ");
                          FInt (Z.of_nat (fst i_stage)); FText (txt ":");
                          FStage (snd i_stage)]]
             else []) ++
            [FileAppend (filename_workflow (paths self))
               (Text (workflow_row str (snd i_stage)))]) ps;
     final := self;
     value_of := Ok tt |}.
Proof.
  intros Hopen. induction ps as [ | x r IH ]; [ reflexivity | ].
  cbn [for_each flat_map].
  rewrite bind_assoc, bind_print_2. unfold write_denise_workflow at 1.
  rewrite bind_assoc, bind_read.
  erewrite bind_known by (apply append_file_ok; exact Hopen).
  rewrite IH.
  unfold prepend. cbn [events final value_of]. now rewrite <- !app_assoc.
Qed.

(** [fwi] with a schedule, where the workflow file can be opened: the
    workflow file, then [_engine]. *)
Lemma fwi_outcome (self : Denise value) (m : Model) (src : Sources)
    (rec : Receivers) (run_command : option text) (disable : bool) :
  fwi_stages self <> [] ->
  open_error (directories self) (filename_workflow (paths self)) = None ->
  fwi str np m src rec run_command disable self =
  prepend (workflow_events str self)
    (engine np m src rec run_command disable (with_MODE 1 self)).
Proof.
  intros Hne Hopen. unfold fwi.
  rewrite bind_read, bind_print_1, bind_modify, bind_read.
  change (fwi_stages (with_MODE 1 self)) with (fwi_stages self).
  destruct (fwi_stages self) as [ | st sts ] eqn:Est; [ contradiction | ].
  change (0 <? Z.of_nat (length (st :: sts)))%Z with true. cbv iota.
  rewrite bind_read, bind_print_1. unfold write_denise_workflow_header.
  rewrite bind_assoc, bind_read.
  erewrite bind_known by (apply write_file_ok; exact Hopen).
  erewrite bind_known by (apply stage_loop_outcome; exact Hopen).
  rewrite !prepend_prepend. unfold workflow_events. rewrite Est.
  f_equal. simpl. now rewrite <- !app_assoc.
Qed.

(** [fwi] with a schedule, where the workflow file cannot be opened: the
    first [open] raises and nothing is written. *)
Lemma fwi_unwritable (self : Denise value) (m : Model) (src : Sources)
    (rec : Receivers) (run_command : option text) (disable : bool) (e : exn) :
  fwi_stages self <> [] ->
  open_error (directories self) (filename_workflow (paths self)) = Some e ->
  fwi str np m src rec run_command disable self =
  {| events :=
       (if (verbose self =? 1)%Z
        then [Print [FText (txt "Target data: "); FText (DATA_DIR (paths self))]]
        else []) ++
       (if (verbose self =? 1)%Z
        then [Print [FText (txt "Create FWI workflow file in ");
                     FText (filename_workflow (paths self))]]
        else []);
     final := with_MODE 1 self;
     value_of := Raise e |}.
Proof.
  intros Hne Hopen. unfold fwi.
  rewrite bind_read, bind_print_1, bind_modify, bind_read.
  change (fwi_stages (with_MODE 1 self)) with (fwi_stages self).
  destruct (fwi_stages self) as [ | st sts ] eqn:Est; [ contradiction | ].
  change (0 <? Z.of_nat (length (st :: sts)))%Z with true. cbv iota.
  rewrite bind_read, bind_print_1. unfold write_denise_workflow_header.
  rewrite bind_assoc, bind_read.
  erewrite bind_raise
    by (rewrite (write_file_raises _ _ (with_MODE 1 self) Hopen); reflexivity).
  rewrite (write_file_raises _ _ (with_MODE 1 self) Hopen).
  unfold prepend. cbn [events final value_of].
  now rewrite app_nil_r.
Qed.

(** [fwi] without a schedule: a warning and nothing else. *)
Lemma fwi_empty_outcome (self : Denise value) (m : Model) (src : Sources)
    (rec : Receivers) (run_command : option text) (disable : bool) :
  fwi_stages self = [] ->
  fwi str np m src rec run_command disable self =
  {| events :=
       (if (verbose self =? 1)%Z
        then [Print [FText (txt "Target data: "); FText (DATA_DIR (paths self))]]
        else []) ++
       [Print [FText (txt "WARNING! Denise.fwi_stages is empty! Append api.StageFWI() to it.")]];
     final := with_MODE 1 self;
     value_of := Ok tt |}.
Proof.
  intros He. unfold fwi.
  rewrite bind_read, bind_print_1, bind_modify, bind_read.
  change (fwi_stages (with_MODE 1 self)) with (fwi_stages self). rewrite He.
  reflexivity.
Qed.

Lemma outputs_app (l l' : list (event value)) :
  outputs (l ++ l') = outputs l ++ outputs l'.
Proof. apply filter_app. Qed.

Lemma outputs_stage_events (self : Denise value) (ps : list (nat * stage value)) :
  outputs
    (flat_map
       (fun i_stage =>
          (if (verbose self =? 2)%Z
           then [Print [FText (tab :: txt "write FWI stage ");
                        FInt (Z.of_nat (fst i_stage)); FText (txt ":");
                        FStage (snd i_stage)]]
           else []) ++
          [FileAppend (filename_workflow (paths self))
             (Text (workflow_row str (snd i_stage)))]) ps) =
  map (fun st => FileAppend (filename_workflow (paths self))
                   (Text (workflow_row str st))) (map snd ps).
Proof.
  induction ps as [ | x r IH ]; [ reflexivity | ].
  cbn [flat_map map]. rewrite !outputs_app, IH.
  destruct (verbose self =? 2)%Z; reflexivity.
Qed.

Lemma map_snd_enumerate (A : Type) (l : list A) : map snd (enumerate l) = l.
Proof.
  unfold enumerate. generalize 0%nat.
  induction l as [ | x r IH ]; intros n; simpl; [ reflexivity | ].
  now rewrite IH.
Qed.

(** The file events of the workflow part: the header, then one row per
    stage, in the order of the schedule. *)
Lemma outputs_workflow_events (self : Denise value) :
  outputs (workflow_events str self) =
  FileWrite (filename_workflow (paths self)) (Text workflow_header) ::
  map (fun st => FileAppend (filename_workflow (paths self))
                   (Text (workflow_row str st))) (fwi_stages self).
Proof.
  unfold workflow_events. rewrite !outputs_app.
  change (outputs (?e :: ?l)) with (outputs ([e] ++ l)).
  destruct (verbose self =? 1)%Z; simpl;
    now rewrite outputs_stage_events, map_snd_enumerate.
Qed.

(** Messages and folders do not change the text of a file. *)
Lemma file_text_outputs (path : text) (l : list (event value)) (before : text) :
  file_text path l before = file_text path (outputs l) before.
Proof.
  revert before. induction l as [ | e r IH ]; intros before; [ reflexivity | ].
  destruct e as [ line | p | p c | p c | c ]; simpl; try apply IH.
  - destruct c; apply IH.
  - destruct c; apply IH.
Qed.

Lemma file_text_appends (path : text) (rows : list text) (before : text) :
  file_text path (map (fun t => FileAppend (value:=value) path (Text t)) rows) before =
  before ++ concat rows.
Proof.
  revert before. induction rows as [ | t r IH ]; intros before; simpl.
  - now rewrite app_nil_r.
  - rewrite RegistryFacts.text_eqb_refl, IH. now rewrite <- app_assoc.
Qed.

(** Each field of a stage row is the field the header names. *)
Lemma row_fields_documented (st : stage value) :
  row_fields str st = documented_fields str st.
Proof. reflexivity. Qed.

Lemma workflow_row_documented (st : stage value) :
  workflow_row str st = documented_row str st.
Proof. reflexivity. Qed.

(** The text of the workflow file after the workflow part of [fwi]. *)
Lemma workflow_file_text (self : Denise value) (before : text) :
  file_text (filename_workflow (paths self)) (workflow_events str self) before =
  documented_workflow str (fwi_stages self).
Proof.
  rewrite file_text_outputs, outputs_workflow_events. simpl.
  rewrite RegistryFacts.text_eqb_refl. unfold documented_workflow.
  rewrite <- (map_map (workflow_row str)
                (fun t => FileAppend (filename_workflow (paths self)) (Text t))).
  rewrite file_text_appends. reflexivity.
Qed.

(** Appending stages one by one leaves them in that order. *)
Lemma add_fwi_stages (self : Denise value) (stages : list (stage value)) :
  fwi_stages (final (for_each stages (@add_fwi_stage value) self)) =
  fwi_stages self ++ stages.
Proof.
  revert self. induction stages as [ | st r IH ]; intros self.
  - simpl. now rewrite app_nil_r.
  - cbn [for_each]. unfold add_fwi_stage at 1. rewrite bind_modify, IH.
    cbn [fwi_stages with_fwi_stages]. now rewrite <- app_assoc.
Qed.

(** Appending stages changes neither the paths nor the directories. *)
Lemma add_fwi_stages_frame (self : Denise value) (stages : list (stage value)) :
  paths (final (for_each stages (@add_fwi_stage value) self)) = paths self /\
  directories (final (for_each stages (@add_fwi_stage value) self)) = directories self.
Proof.
  revert self. induction stages as [ | st r IH ]; intros self.
  - split; reflexivity.
  - cbn [for_each]. unfold add_fwi_stage at 1 3. rewrite bind_modify.
    destruct (IH (with_fwi_stages (fwi_stages self ++ [st]) self)) as [Hp Hd].
    rewrite Hp, Hd. split; reflexivity.
Qed.

Lemma split_app_nosep (sep : ascii) (a b : text) :
  contains sep a = false -> split sep (a ++ sep :: b) = a :: split sep b.
Proof.
  induction a as [ | c r IH ]; simpl.
  - intros _. now rewrite Ascii.eqb_refl.
  - rewrite Ascii.eqb_sym. destruct (Ascii.eqb c sep); simpl; [ discriminate | ].
    intros H. now rewrite IH.
Qed.

Lemma contains_app (sep : ascii) (a b : text) :
  contains sep (a ++ b) = contains sep a || contains sep b.
Proof. apply existsb_app. Qed.

(** Splitting a joined line gives the joined pieces back; what follows
    the line stays with the last piece. *)
Lemma split_join_suffix (sep : ascii) (l : list text) (s : text) :
  l <> [] ->
  Forall (fun p => contains sep p = false) l ->
  contains sep s = false ->
  split sep (join sep l ++ s) = removelast l ++ [last l [] ++ s].
Proof.
  intros Hne Hl Hs. induction l as [ | p r IH ]; [ contradiction | ].
  inversion Hl as [ | ? ? Hp Hr ]; subst.
  destruct r as [ | q r' ].
  - simpl. apply RegistryFacts.split_no_sep. now rewrite contains_app, Hp, Hs.
  - rewrite RegistryFacts.join_cons by discriminate.
    rewrite <- app_assoc, <- app_comm_cons.
    rewrite split_app_nosep by assumption.
    rewrite IH by (discriminate || assumption). reflexivity.
Qed.

Lemma row_fields_tab_free (st : stage value) :
  Forall (fun v => contains tab (str v) = false) (printed_values st) ->
  Forall (fun p => contains tab p = false) (row_fields str st).
Proof.
  intros H. rewrite Forall_forall in H. apply Forall_forall. intros p Hp.
  unfold row_fields in Hp. unfold printed_values in H.
  repeat (destruct Hp as [<- | Hp];
          [ first [ reflexivity
                  | apply H; repeat (first [ left; reflexivity | right ]) ] | ]).
  contradiction.
Qed.

(** The columns of a stage row, read as the header is read, for values
    printed without tabulators: the fields the header names, stripped. *)
Lemma row_columns (st : stage value) :
  Forall (fun v => contains tab (str v) = false) (printed_values st) ->
  columns (workflow_row str st) = map strip (documented_fields str st).
Proof.
  intros H. unfold columns, workflow_row.
  rewrite split_join_suffix;
    [ | discriminate | now apply row_fields_tab_free | reflexivity ].
  change (documented_fields str st) with (row_fields str st).
  apply (map_removelast_last strip (fun x => x ++ [nl])); [ discriminate | ].
  intros x. now apply (@strip_app_space x nl).
Qed.

(** C9.  [fwi] on an empty schedule prints a warning that tells the user
    to append a stage, and returns: the events are messages only, so no
    workflow file or other file is written and the solver is not
    started. *)
Theorem fwi_empty_schedule (self : Denise value) (m : Model) (src : Sources)
    (rec : Receivers) (run_command : option text) (disable : bool) :
  fwi_stages self = [] ->
  value_of (fwi str np m src rec run_command disable self) = Ok tt /\
  final (fwi str np m src rec run_command disable self) = with_MODE 1 self /\
  In (Print [FText (txt "WARNING! Denise.fwi_stages is empty! Append api.StageFWI() to it.")])
     (events (fwi str np m src rec run_command disable self)) /\
  Forall (fun e => exists line, e = Print line)
         (events (fwi str np m src rec run_command disable self)) /\
  outputs (events (fwi str np m src rec run_command disable self)) = [].
Proof.
  intros He. rewrite (@fwi_empty_outcome self m src rec run_command disable He).
  cbn [events final value_of].
  split; [ reflexivity | ]. split; [ reflexivity | ].
  destruct (verbose self =? 1)%Z; simpl.
  - split; [ auto | ]. split; [ | reflexivity ].
    repeat constructor; eexists; reflexivity.
  - split; [ auto | ]. split; [ | reflexivity ].
    repeat constructor; eexists; reflexivity.
Qed.

(** C4 (amended).  When a grid size of the model is not a multiple of
    its process count, a forward run raises having created nothing but
    folders and messages: no file is written and the solver is not
    started.  An inversion run with a schedule opens the workflow file
    first.  Where it can be opened (its folder exists) the run has by
    then written the workflow file, header and rows, and nothing else:
    what follows the workflow events raises as a forward run does.  Where
    it cannot be opened, the run raises the error of [open] with nothing
    but messages behind it. *)
Theorem decomposition_failure (self : Denise value) (m : Model) (src : Sources)
    (rec : Receivers) (run_command : option text) (disable : bool) :
  (snd (shape (vp m)) mod NPROCX (settings self) <> 0 \/
   fst (shape (vp m)) mod NPROCY (settings self) <> 0)%Z ->
  aborted (forward np m src rec run_command disable self) /\
  (fwi_stages self <> [] ->
   (open_error (directories self) (filename_workflow (paths self)) = None ->
    exists eng,
      fwi str np m src rec run_command disable self =
        prepend (workflow_events str self) eng /\
      aborted eng /\
      outputs (workflow_events str self) =
        FileWrite (filename_workflow (paths self)) (Text workflow_header) ::
        map (fun st => FileAppend (filename_workflow (paths self))
                         (Text (workflow_row str st))) (fwi_stages self)) /\
   (forall e,
      open_error (directories self) (filename_workflow (paths self)) = Some e ->
      value_of (fwi str np m src rec run_command disable self) = Raise e /\
      Forall (fun ev => exists line, ev = Print line)
             (events (fwi str np m src rec run_command disable self)))).
Proof.
  intros H. split.
  - unfold forward. rewrite bind_modify. now apply engine_aborted.
  - intros Hne. split.
    + intros Hopen.
      exists (engine np m src rec run_command disable (with_MODE 1 self)).
      split; [ now apply fwi_outcome | ].
      split; [ now apply engine_aborted | apply outputs_workflow_events ].
    + intros e Hopen.
      rewrite (@fwi_unwritable self m src rec run_command disable e Hne Hopen).
      cbn [events value_of]. split; [ reflexivity | ].
      destruct (verbose self =? 1)%Z; repeat constructor; eexists; reflexivity.
Qed.


End Runs.

Lemma fwi_empty_schedule_witness :
  value_of (fwi str_int Demo.numpy Demo.demo_model Demo.demo_sources
              Demo.demo_receivers None false Demo.demo) = Ok tt /\
  outputs (events (fwi str_int Demo.numpy Demo.demo_model Demo.demo_sources
                     Demo.demo_receivers None false Demo.demo)) = [].
Proof.
  destruct (@fwi_empty_schedule Z str_int Demo.numpy Demo.demo Demo.demo_model
              Demo.demo_sources Demo.demo_receivers None false eq_refl)
    as (Hv & _ & _ & _ & Ho).
  split; assumption.
Defined.

Lemma demo_grid_fails (self : Denise Z) :
  settings self = Demo.demo_settings ->
  (snd (shape (vp Demo.demo_model)) mod NPROCX (settings self) <> 0 \/
   fst (shape (vp Demo.demo_model)) mod NPROCY (settings self) <> 0)%Z.
Proof. intros ->. left. vm_compute. discriminate. Qed.

(** The 2 x 3 grid of the demo model on 5 x 3 processes: in a fresh
    working directory a forward run raises with folders made only, and an
    inversion run raises [FileNotFoundError] at the workflow file; where
    [./outputs] exists the inversion run writes the workflow file and
    then raises. *)
Lemma decomposition_failure_witness :
  aborted (forward Demo.numpy Demo.demo_model Demo.demo_sources Demo.demo_receivers
             None false Demo.demo_fwi) /\
  value_of (fwi str_int Demo.numpy Demo.demo_model Demo.demo_sources
              Demo.demo_receivers None false Demo.demo_fwi)
    = Raise FileNotFoundError /\
  exists eng,
    fwi str_int Demo.numpy Demo.demo_model Demo.demo_sources Demo.demo_receivers
      None false Demo.demo_fwi_outputs =
    prepend (workflow_events str_int Demo.demo_fwi_outputs) eng /\
    aborted eng.
Proof.
  destruct (@decomposition_failure Z str_int Demo.numpy Demo.demo_fwi Demo.demo_model
              Demo.demo_sources Demo.demo_receivers None false
              (demo_grid_fails Demo.demo_fwi eq_refl))
    as [Hf Hi].
  destruct (@decomposition_failure Z str_int Demo.numpy Demo.demo_fwi_outputs
              Demo.demo_model Demo.demo_sources Demo.demo_receivers None false
              (demo_grid_fails Demo.demo_fwi_outputs eq_refl))
    as [_ Ho].
  split; [ exact Hf | ]. split.
  - destruct (Hi ltac:(discriminate)) as [_ Hno].
    destruct (Hno FileNotFoundError eq_refl) as [Hv _]. exact Hv.
  - destruct (Ho ltac:(discriminate)) as [Hyes _].
    destruct (Hyes eq_refl) as (eng & He & Ha & _).
    exists eng. split; assumption.
Defined.

(** C4 (as stated) fails: where the folder [./outputs] exists, as after
    any earlier run, an inversion run on a 2 x 3 grid with 5 x 3
    processes writes the workflow file, and then the decomposition check
    raises. *)
Lemma workflow_written_before_check :
  exists eng,
    fwi str_int Demo.numpy Demo.demo_model Demo.demo_sources Demo.demo_receivers
      None false Demo.demo_fwi_outputs =
    prepend (workflow_events str_int Demo.demo_fwi_outputs) eng /\
    value_of eng = Raise (AssertionError (decomp_message "X")) /\
    In (FileWrite (txt "./outputs/seis_fwi.inp") (Text workflow_header))
       (workflow_events str_int Demo.demo_fwi_outputs) /\
    In (FileWrite (txt "./outputs/seis_fwi.inp") (Text workflow_header))
       (events (fwi str_int Demo.numpy Demo.demo_model Demo.demo_sources
                  Demo.demo_receivers None false Demo.demo_fwi_outputs)).
Proof.
  exists (engine Demo.numpy Demo.demo_model Demo.demo_sources Demo.demo_receivers
            None false (with_MODE 1 Demo.demo_fwi_outputs)).
  assert (Hrun : fwi str_int Demo.numpy Demo.demo_model Demo.demo_sources
                   Demo.demo_receivers None false Demo.demo_fwi_outputs =
                 prepend (workflow_events str_int Demo.demo_fwi_outputs)
                   (engine Demo.numpy Demo.demo_model Demo.demo_sources
                      Demo.demo_receivers None false
                      (with_MODE 1 Demo.demo_fwi_outputs)))
    by (apply fwi_outcome; [ discriminate | reflexivity ]).
  split; [ exact Hrun | ].
  split; [ | split ].
  - destruct (engine_prefix Demo.numpy (with_MODE 1 Demo.demo_fwi_outputs)
                Demo.demo_model Demo.demo_sources Demo.demo_receivers None false)
      as (dirs & p & k & ->).
    cbn [prepend value_of]. rewrite value_of_bind.
    rewrite (@check_max_frequency_outcome Z
               (checked_object (with_directories dirs (with_MODE 1 Demo.demo_fwi_outputs))
                  Demo.demo_model Demo.demo_sources Demo.demo_receivers p)
               (3500 / 1.7)%float 3500%float
               [23.0; 8.0; 6.0; 5.0; 5.0; 4.0]%float 6.0%float
               demo_min_vs demo_min_vp eq_refl eq_refl).
    cbn [value_of final]. rewrite value_of_bind.
    rewrite check_domain_decomp_value, check_value. reflexivity.
  - simpl. auto.
  - rewrite Hrun. cbn [prepend events]. apply in_or_app. left. simpl. auto.
Qed.

Lemma demo_stages_tab_free :
  forall st, In st [Demo.stage_a; Demo.stage_b; Demo.stage_c] ->
    Forall (fun v => contains tab (str_int v) = false) (printed_values st).
Proof.
  intros st [<- | [<- | [<- | []]]]; unfold printed_values; repeat constructor.
Qed.



End RunFacts.

(* ===================================================================== *)
(** ** Laws of the parameter registry *)

Module RegistryLaws.
Import PyStr PyDict Registry RegistryLines RegistryFacts.

Lemma split_app (sep : ascii) (a b : text) :
  split sep (a ++ sep :: b) = split sep a ++ split sep b.
Proof.
  induction a as [ | c r IH ]; simpl.
  - now rewrite Ascii.eqb_refl.
  - destruct (Ascii.eqb c sep); [ now rewrite IH | ].
    rewrite IH. pose proof (split_nonempty sep r) as Hne.
    destruct (split sep r); [ contradiction | reflexivity ].
Qed.

(** The text before the final [=] of a line that ends in a piece without
    one. *)
Lemma before_last_eq_app (b s : text) :
  contains "="%char s = false -> before_last_eq (b ++ "="%char :: s) = b.
Proof.
  intros Hs. unfold before_last_eq.
  rewrite split_app, (split_no_sep _ _ Hs), removelast_last.
  apply join_split.
Qed.

Lemma readlines_nonempty (s : text) : s <> [] -> readlines s <> [].
Proof.
  destruct s as [ | c r ]; [ contradiction | intros _; simpl ].
  destruct (Ascii.eqb c nl); [ discriminate | ].
  destruct (readlines r); discriminate.
Qed.

(** Lines read from a text that ends with a newline are not joined with
    what follows it. *)
Lemma readlines_app (s : text) (rest : text) :
  (s = [] \/ exists t, s = t ++ [nl]) ->
  readlines (s ++ rest) = readlines s ++ readlines rest.
Proof.
  induction s as [ | c r IH ]; intros Hend; [ reflexivity | ].
  assert (Hr : r = [] \/ exists t, r = t ++ [nl]).
  { destruct Hend as [H | [t H]]; [ discriminate | ].
    destruct t as [ | d t ]; simpl in H; injection H as -> ->; eauto. }
  simpl. destruct (Ascii.eqb c nl) eqn:E.
  - now rewrite IH.
  - rewrite IH by assumption.
    assert (Hne : r <> []).
    { intros ->. destruct Hend as [H | [t H]]; [ discriminate | ].
      destruct t as [ | d t ]; simpl in H.
      - injection H as ->. now rewrite Ascii.eqb_refl in E.
      - injection H as _ H. now destruct t. }
    apply readlines_nonempty in Hne.
    destruct (readlines r); [ contradiction | reflexivity ].
Qed.

Section Laws.
Variable lit : Type.
Variable literal_eval : text -> eval_result (pyobj lit).
Variable str_lit : lit -> text.

Lemma write_lines_unrecorded (a : dict (pyobj lit)) (k : text) (v : pyobj lit)
    (items : dict Z) : forall c,
  ~ In k (keys items) ->
  write_lines str_lit (set a k v) items c = write_lines str_lit a items c.
Proof.
  induction items as [ | [attr id] rest IH ]; intros c Hk; [ reflexivity | ].
  simpl in Hk. simpl.
  destruct (getitem c (id - 1)) as [old | ]; [ simpl | reflexivity ].
  unfold getattr. rewrite get_set_other by (intros ->; apply Hk; now left).
  destruct (get a attr) as [w | ]; [ simpl | reflexivity ].
  destruct (setitem c (id - 1) (rewrite_line str_lit old w)); simpl; [ | reflexivity ].
  apply IH. intros H. apply Hk. now right.
Qed.

Lemma rewritten_twice (a : dict (pyobj lit)) (margs : dict Z) (i : nat) (line : text) :
  (forall k id v, In (k, id) margs -> get a k = Some v ->
     contains "="%char (render str_lit v) = false) ->
  rewritten str_lit a margs i (rewritten str_lit a margs i line) =
  rewritten str_lit a margs i line.
Proof.
  intros Hfree. unfold rewritten.
  destruct (tracked_at margs i) as [k | ] eqn:Et; [ | reflexivity ].
  destruct (get a k) as [v | ] eqn:Ev; [ | reflexivity ].
  apply tracked_at_in in Et. specialize (Hfree _ _ _ Et Ev).
  unfold rewrite_line at 1. unfold rewrite_line at 2. f_equal.
  unfold rewrite_line.
  change (txt "= " ++ render str_lit v ++ [nl])
    with ("="%char :: " "%char :: render str_lit v ++ [nl]).
  apply before_last_eq_app.
  change (" "%char :: render str_lit v ++ [nl])
    with ([" "%char] ++ render str_lit v ++ [nl]).
  unfold contains in *. rewrite !existsb_app, Hfree. reflexivity.
Qed.

Lemma setattrs_store (updates : list (text * pyobj lit)) : forall self,
  wf_store (inp_file self) (attrs self) (map_args self) ->
  let self' := fold_left (fun s kv => setattr s (fst kv) (snd kv)) updates self in
  inp_file self' = inp_file self /\ map_args self' = map_args self /\
  wf_store (inp_file self') (attrs self') (map_args self').
Proof.
  induction updates as [ | [k v] r IH ]; intros self Hwf; cbv zeta.
  - simpl. auto.
  - cbn [fold_left fst snd].
    destruct (IH (setattr self k v)) as (H1 & H2 & H3).
    + simpl. now apply wf_store_setattr.
    + rewrite H1, H2 in H3. rewrite H1, H2. auto.
Qed.



Lemma parse_lines_stop (stop : text) (post : list text) :
  parse_line stop = Ok EndOfParameters ->
  forall pre count para margs,
    parse_lines literal_eval (pre ++ stop :: post) count para margs =
    parse_lines literal_eval (pre ++ [stop]) count para margs.
Proof.
  intros Hs. induction pre as [ | l r IH ]; intros count para margs; simpl.
  - now rewrite Hs.
  - destruct (parse_line l) as [[ | k val | ] | ]; simpl; auto.
    destruct (typed_value literal_eval val); simpl; auto.
Qed.

(** X3.  The parser stops at the first line that is neither a comment
    nor an assignment: whatever text follows such a line (ended by a
    newline) changes neither the recorded names and line numbers nor the
    attributes, nor whether the parser raises; it is only kept in the
    line list. *)
Theorem parser_stops (content rest : text) (pre : list text) (stop : text) :
  readlines content = pre ++ [stop ++ [nl]] ->
  parse_line (stop ++ [nl]) = Ok EndOfParameters ->
  parse_inp_file literal_eval (content ++ rest) =
  match parse_inp_file literal_eval content with
  | Ok self => Ok {| inp_file := inp_file self ++ readlines rest;
                     map_args := map_args self;
                     attrs := attrs self |}
  | Raise e => Raise e
  end.
Proof.
  intros Hl Hs.
  assert (Hend : content = [] \/ exists t, content = t ++ [nl]).
  { right. exists (concat pre ++ stop).
    rewrite <- (concat_readlines content), Hl, concat_app. simpl.
    now rewrite app_nil_r, app_assoc. }
  unfold parse_inp_file. rewrite (readlines_app rest Hend), Hl.
  rewrite <- app_assoc. cbn [app].
  rewrite (@parse_lines_stop (stop ++ [nl]) (readlines rest) Hs).
  unfold text, dict in *.
  match goal with
  | |- context [parse_lines ?f ?l ?n ?p ?m] => destruct (parse_lines f l n p m) as [pm | ]
  end; simpl; [ | reflexivity ].
  now rewrite <- app_assoc.
Qed.

Lemma parse_lines_reads_on (pre : list text) (rest : list text) :
  Forall (reads_on literal_eval) pre ->
  forall count para margs,
  exists para' margs',
    parse_lines literal_eval (pre ++ rest) count para margs =
    parse_lines literal_eval rest (count + Z.of_nat (length pre)) para' margs'.
Proof.
  induction 1 as [ | l r Hl Hr IH ]; intros count para margs.
  - exists para, margs. simpl. now rewrite Z.add_0_r.
  - cbn [app parse_lines length].
    replace (count + Z.of_nat (S (length r)))%Z
      with (count + 1 + Z.of_nat (length r))%Z by lia.
    destruct Hl as [-> | (k & val & v & -> & Hv)]; simpl.
    + apply IH.
    + rewrite Hv. simpl. apply IH.
Qed.

(** X4.  A blank line, or a line with an opening parenthesis and no
    closed group, that the parser reaches makes [_parse_inp_file] raise
    [IndexError]: it has no first character, or no last group. *)
Theorem parser_index_error (content : text) (pre post : list text) (bad : text) :
  readlines content = pre ++ bad :: post ->
  Forall (reads_on literal_eval) pre ->
  (strip bad = [] \/
   (hd "#"%char (strip bad) <> "#"%char /\
    contains "("%char (strip bad) = true /\
    findall_parens (strip bad) = [])) ->
  parse_inp_file literal_eval content = Raise IndexError.
Proof.
  intros Hl Hpre Hbad. unfold parse_inp_file. rewrite Hl.
  destruct (@parse_lines_reads_on pre (bad :: post) Hpre 0%Z [] []) as (para & margs & ->).
  cbn [parse_lines].
  assert (E : parse_line bad = Raise IndexError).
  { unfold parse_line. destruct Hbad as [-> | (Hc & Hp & Hf)]; [ reflexivity | ].
    destruct (strip bad) as [ | c r ] eqn:Es; [ discriminate | ].
    simpl in Hc. destruct (Ascii.eqb c "#"%char) eqn:Ec.
    - apply Ascii.eqb_eq in Ec. contradiction.
    - rewrite Hp, Hf. reflexivity. }
  now rewrite E.
Qed.

Lemma in_set_same (V : Type) (d : dict V) (k : text) (v : V) : In (k, v) (set d k v).
Proof.
  induction d as [ | [k0 v0] r IH ]; simpl; [ auto | ].
  destruct (text_eqb k0 k) eqn:E; simpl; [ | auto ].
  apply text_eqb_eq in E. subst. auto.
Qed.

Lemma in_set_other (V : Type) (d : dict V) (k k' : text) (v v' : V) :
  k' <> k -> In (k', v') d -> In (k', v') (set d k v).
Proof.
  intros Hne. induction d as [ | [k0 v0] r IH ]; simpl; [ tauto | ].
  destruct (text_eqb k0 k) eqn:E; simpl.
  - apply text_eqb_eq in E. subst k0.
    intros [H | H]; [ inversion H; subst; contradiction | auto ].
  - intros [H | H]; auto.
Qed.

Lemma parse_lines_recorded : forall rest pre para margs pm,
  Forall (fun l => parse_line l <> Ok EndOfParameters) rest ->
  parse_lines literal_eval rest (Z.of_nat (length pre)) para margs = Ok pm ->
  recorded pre margs ->
  recorded (pre ++ rest) (snd pm).
Proof.
  induction rest as [ | line rest IH ]; intros pre para margs pm Hns Hp Hrec.
  - simpl in Hp. injection Hp as <-. now rewrite app_nil_r.
  - assert (Hcount : (Z.of_nat (length pre) + 1)%Z = Z.of_nat (length (pre ++ [line]))).
    { rewrite length_app. simpl. lia. }
    assert (Hlist : pre ++ line :: rest = (pre ++ [line]) ++ rest).
    { now rewrite <- app_assoc. }
    inversion Hns as [ | ? ? Hline Hrest ]; subst.
    simpl in Hp. destruct (parse_line line) as [p | ] eqn:El; [ | discriminate ].
    simpl in Hp. destruct p as [ | k val | ]; [ | | contradiction ].
    + rewrite Hcount in Hp. rewrite Hlist. apply (IH _ _ _ _ Hrest Hp).
      intros j l k val Hj Hl.
      destruct (Nat.lt_ge_cases j (length pre)) as [Hlt | Hge].
      * rewrite nth_error_app1 in Hj by assumption. eauto.
      * rewrite nth_error_app2 in Hj by assumption.
        destruct (j - length pre) as [ | n ]; simpl in Hj;
          [ injection Hj as <-; congruence | now destruct n ].
    + destruct (typed_value literal_eval val) as [v | ]; [ | discriminate ].
      simpl in Hp. rewrite Hcount in Hp. rewrite Hlist. apply (IH _ _ _ _ Hrest Hp).
      rewrite <- Hcount.
      intros j l k' val' Hj Hl.
      destruct (Nat.lt_ge_cases j (length pre)) as [Hlt | Hge].
      * rewrite nth_error_app1 in Hj by assumption.
        destruct (Hrec _ _ _ _ Hj Hl) as (id & Hin & Hle).
        destruct (list_eq_dec ascii_dec k' k) as [-> | Hne].
        -- exists (Z.of_nat (length pre) + 1)%Z. split; [ apply in_set_same | lia ].
        -- exists id. split; [ now apply in_set_other | assumption ].
      * rewrite nth_error_app2 in Hj by assumption.
        destruct (j - length pre) as [ | n ] eqn:En; simpl in Hj;
          [ | now destruct n ].
        injection Hj as <-. rewrite El in Hl. injection Hl as <- <-.
        exists (Z.of_nat (length pre) + 1)%Z. split; [ apply in_set_same | lia ].
Qed.


End Laws.



Lemma parser_stops_witness :
  exists self,
    parse_inp_file int_literal_eval (txt "A=1" ++ [nl] ++ txt "end" ++ [nl]) = Ok self /\
    parse_inp_file int_literal_eval
      ((txt "A=1" ++ [nl] ++ txt "end" ++ [nl]) ++ (txt "B=2" ++ [nl])) =
    Ok {| inp_file := inp_file self ++ [txt "B=2" ++ [nl]];
          map_args := map_args self;
          attrs := attrs self |} /\
    keys (map_args self) = [txt "A"].
Proof.
  pose proof (@parser_stops Z int_literal_eval
                (txt "A=1" ++ [nl] ++ txt "end" ++ [nl]) (txt "B=2" ++ [nl])
                [txt "A=1" ++ [nl]] (txt "end") eq_refl eq_refl) as H.
  destruct (parse_inp_file int_literal_eval (txt "A=1" ++ [nl] ++ txt "end" ++ [nl]))
    as [self | ] eqn:Hp; [ | discriminate Hp ].
  exists self. split; [ reflexivity | ]. split; [ exact H | ].
  vm_compute in Hp. injection Hp as <-. reflexivity.
Defined.

Lemma parser_index_error_witness :
  parse_inp_file int_literal_eval (txt "A=1" ++ [nl] ++ [nl] ++ txt "B=2" ++ [nl]) =
  Raise IndexError.
Proof.
  apply (@parser_index_error Z int_literal_eval
           (txt "A=1" ++ [nl] ++ [nl] ++ txt "B=2" ++ [nl])
           [txt "A=1" ++ [nl]] [txt "B=2" ++ [nl]] [nl] eq_refl).
  - constructor; [ | constructor ]. right.
    exists (txt "A"), (txt "1"), (PyLit 1%Z). split; reflexivity.
  - left. reflexivity.
Defined.


End RegistryLaws.

(* ===================================================================== *)
(** ** Laws of [set_paths] *)

Module PathLaws.
Import PyStr PyDict Registry PathTable RegistryFacts RegistryLaws MonadFacts.

Lemma path_join_starts (a b : text) :
  hd "a"%char b <> "/"%char -> starts_with a (Denise.path_join a b).
Proof.
  intros Hb. unfold Denise.path_join, starts_with.
  destruct b as [ | c r ].
  - destruct (rev a) as [ | d l ] eqn:Er; [ | destruct (Ascii.eqb d "/"%char) ].
    + exists []. apply (f_equal (@rev ascii)) in Er.
      rewrite rev_involutive in Er. now subst a.
    + exists []. now rewrite app_nil_r.
    + now exists ["/"%char].
  - simpl in Hb. destruct (Ascii.eqb c "/"%char) eqn:Ec.
    + apply Ascii.eqb_eq in Ec. contradiction.
    + destruct (rev a) as [ | d l ] eqn:Er; [ | destruct (Ascii.eqb d "/"%char) ].
      * exists (c :: r). apply (f_equal (@rev ascii)) in Er.
        rewrite rev_involutive in Er. now subst a.
      * now exists (c :: r).
      * now exists ("/"%char :: c :: r).
Qed.

Lemma path_join_absolute (a r : text) :
  Denise.path_join a ("/"%char :: r) = "/"%char :: r.
Proof. reflexivity. Qed.

Lemma hd_app (s t : text) (d c : ascii) : hd d (s ++ c :: t) = hd c s.
Proof. now destruct s. Qed.

(** The routed paths, for a name that does not begin with [/]. *)
Lemma path_table_relative (s : text) :
  hd "a"%char s <> "/"%char ->
  Forall (fun kv => hd "a"%char (snd kv) <> "/"%char) (path_table s).
Proof.
  intros Hs. unfold path_table.
  repeat (constructor; [ first [ discriminate | cbn [snd txt list_ascii_of_string app hd];
                                 destruct s; [ discriminate | exact Hs ] ] | ]).
  constructor.
Qed.

Section Objects.
Variable value : Type.

Lemma set_paths_final (makedirs : bool) (self : Denise.Denise value) :
  Denise.paths (Denise.final (Denise.set_paths makedirs self)) =
  let route := Denise.path_join (Denise.save_folder self) in
  let s := Denise.SEIS_FILE_NAME self in
  {| Denise.DATA_DIR := route (txt "su/" ++ s);
     Denise.filename := route (s ++ txt ".inp");
     Denise.filename_workflow := route (s ++ txt "_fwi.inp");
     Denise.MFILE := route (txt "start/model");
     Denise.REC_FILE := route (txt "receiver/receivers");
     Denise.SOURCE_FILE := route (txt "source/sources.dat") |}.
Proof.
  destruct makedirs.
  - unfold Denise.set_paths. rewrite bind_assoc, bind_read.
    unfold Denise.create_folders.
    destruct (RunFacts.for_each_makedirs
                (fun f => Denise.path_join (Denise.save_folder self) (f ++ txt "/"))
                Denise.folders self) as [dirs Hd].
    erewrite bind_known by exact Hd.
    reflexivity.
  - unfold Denise.set_paths. rewrite bind_ret. reflexivity.
Qed.

(** X6.  The paths [set_paths] builds lie under the save folder unless
    the seismogram name is absolute: when [SEIS_FILE_NAME] does not begin
    with [/], each of the 21 routed paths starts with [save_folder], and
    so does each path attribute the run methods read afterwards; when it
    begins with [/], the parameter file and the workflow file are routed
    to the name itself, outside the save folder. *)
Theorem set_paths_under_save_folder (makedirs : bool) (self : Denise.Denise value) :
  let s := Denise.SEIS_FILE_NAME self in
  let folder := Denise.save_folder self in
  let self' := Denise.final (Denise.set_paths makedirs self) in
  (hd "a"%char s <> "/"%char ->
   Forall (fun kv => starts_with folder (route folder (snd kv))) (path_table s) /\
   Forall (fun kq => starts_with folder (snd kq) /\
                     exists rel, In (fst kq, rel) (path_table s) /\
                                 snd kq = route folder rel)
          (run_paths (Denise.paths self'))) /\
  (forall r, s = "/"%char :: r ->
     Denise.filename (Denise.paths self') = s ++ txt ".inp" /\
     Denise.filename_workflow (Denise.paths self') = s ++ txt "_fwi.inp").
Proof.
  intros s folder self'. unfold self'. rewrite set_paths_final. cbv zeta.
  fold s folder. split.
  - intros Hs. pose proof (path_table_relative s Hs) as Hrel.
    assert (Hall : Forall (fun kv => starts_with folder (route folder (snd kv)))
                     (path_table s)).
    { apply Forall_impl with (2 := Hrel). intros kv. apply path_join_starts. }
    split; [ exact Hall | ].
    rewrite Forall_forall in Hall.
    assert (Hrun : forall k rel, In (k, rel) (path_table s) ->
              starts_with folder (Denise.path_join folder rel) /\
              exists rel', In (k, rel') (path_table s) /\
                           Denise.path_join folder rel = route folder rel').
    { intros k rel Hin. split; [ apply (Hall _ Hin) | eauto ]. }
    unfold run_paths. cbn [Denise.DATA_DIR Denise.filename Denise.filename_workflow
                             Denise.MFILE Denise.REC_FILE Denise.SOURCE_FILE].
    repeat (constructor; [ cbn [fst snd]; apply Hrun; unfold path_table;
                           repeat (first [ left; reflexivity | right ]) | ]).
    constructor.
  - intros r Hr. cbn [Denise.filename Denise.filename_workflow].
    rewrite Hr. split; reflexivity.
Qed.

End Objects.

Section Serialized.
Variable lit : Type.
Variable literal_eval : text -> eval_result (pyobj lit).
Variable str_lit : lit -> text.

Lemma path_keys_nodup (save_folder s : text) :
  NoDup (keys (paths_dict lit save_folder s)).
Proof.
  unfold keys, paths_dict. rewrite map_map. cbn [fst].
  assert (E : map (fun kv : text * text => fst kv) (path_table s) =
              nodup (list_eq_dec ascii_dec)
                (map (fun kv : text * text => fst kv) (path_table []))).
  { vm_compute. reflexivity. }
  rewrite E. apply NoDup_nodup.
Qed.

Lemma in_get (V : Type) (d : dict V) (k : text) (v : V) :
  NoDup (keys d) -> In (k, v) d -> get d k = Some v.
Proof.
  intros Hnd Hin. destruct (get d k) as [w | ] eqn:E.
  - f_equal. induction d as [ | [k0 v0] r IH ]; [ contradiction | ].
    simpl in *. inversion Hnd as [ | ? ? Hnot Hnd' ]; subst.
    destruct (text_eqb k0 k) eqn:Ek.
    + apply text_eqb_eq in Ek. subst k0. injection E as ->.
      destruct Hin as [H | H]; [ congruence | ].
      exfalso. apply Hnot. now apply (in_map fst) in H.
    + destruct Hin as [H | H]; [ | auto ].
      injection H as -> _. now rewrite text_eqb_refl in Ek.
  - apply get_none_keys in E. exfalso. apply E. now apply (in_map fst) in Hin.
Qed.

Lemma wf_store_dict_to_args c (d : dict (pyobj lit)) margs : forall a,
  wf_store c a margs -> wf_store c (dict_to_args d a) margs.
Proof.
  induction d as [ | [k v] r IH ]; intros a Hwf; [ exact Hwf | ].
  unfold dict_to_args in *. simpl. apply IH. now apply wf_store_setattr.
Qed.


End Serialized.


Lemma set_paths_under_save_folder_witness :
  Forall (fun kq => starts_with (txt "./outputs/") (snd kq))
         (run_paths (Denise.paths (Denise.final (Denise.set_paths true Demo.demo)))) /\
  Denise.filename (Denise.paths (Denise.final (Denise.set_paths true Demo.demo))) =
    txt "./outputs/seis.inp".
Proof.
  destruct (@set_paths_under_save_folder Z true Demo.demo) as [Hin _].
  destruct (Hin ltac:(discriminate)) as [_ Hrun].
  split.
  - apply Forall_impl with (2 := Hrun). intros kq [H _]. exact H.
  - rewrite set_paths_final. reflexivity.
Defined.

End PathLaws.

(* ===================================================================== *)
(** ** Laws of the stability and dispersion analyses outside their tables *)

Module StabilityLaws.
Import PyStr Float64 Tables Spec Workflow Denise NumericFacts MonadFacts StabilityFacts
       DispersionFacts.
Local Open Scope float_scope.

Lemma hc_rows (e : Z) (table : list (list float)) :
  hc e = Ok table -> length table = 6%nat.
Proof.
  unfold hc. repeat (destruct (_ =? _)%Z); intros [= <-]; reflexivity.
Qed.

Lemma getitem_wraps (A : Type) (l : list A) (i : Z) :
  (- Z.of_nat (length l) <= i < 0)%Z ->
  getitem l i = getitem l (i + Z.of_nat (length l)).
Proof.
  intros Hi. unfold getitem, index_of.
  replace (0 <=? i)%Z with false by (symmetry; apply Z.leb_gt; lia).
  replace (- Z.of_nat (length l) <=? i)%Z with true by (symmetry; apply Z.leb_le; lia).
  replace (i <? 0)%Z with true by (symmetry; apply Z.ltb_lt; lia).
  replace (0 <=? i + Z.of_nat (length l))%Z with true by (symmetry; apply Z.leb_le; lia).
  replace (i + Z.of_nat (length l) <? Z.of_nat (length l))%Z with true
    by (symmetry; apply Z.ltb_lt; lia).
  cbn [andb]. now rewrite Z.add_comm.
Qed.

Lemma getitem_out_of_range (A : Type) (l : list A) (i : Z) :
  (i < - Z.of_nat (length l) \/ Z.of_nat (length l) <= i)%Z ->
  getitem l i = Raise IndexError.
Proof.
  intros Hi. unfold getitem, index_of.
  destruct Hi as [Hi | Hi].
  - replace (0 <=? i)%Z with false by (symmetry; apply Z.leb_gt; lia).
    replace (- Z.of_nat (length l) <=? i)%Z with false by (symmetry; apply Z.leb_gt; lia).
    reflexivity.
  - replace (i <? Z.of_nat (length l))%Z with false by (symmetry; apply Z.ltb_ge; lia).
    replace (i <? 0)%Z with false by (symmetry; apply Z.ltb_ge; lia).
    now rewrite !andb_false_r.
Qed.

Section Analyses.
Variable value : Type.
Variable np : Numpy.

(** A class outside 0..4 has no coefficient table. *)
Lemma hc_unbound (e : Z) : (e < 0 \/ 4 < e)%Z -> hc e = Raise UnboundLocalError.
Proof.
  intros He. unfold hc.
  repeat (match goal with
          | |- context [(?a =? ?b)%Z] =>
              destruct (Z.eqb_spec a b); [ lia | ]
          end).
  reflexivity.
Qed.


(** X9.  A too small [FD_ORDER] is not rejected: when
    [(int)(FD_ORDER / 2)] is [h] with [-5 <= h <= 0], the row index
    [h - 1] is negative and selects a row from the end of the table, so
    [_check_stability] returns what it returns for the half-length
    [h + 6] (for [FD_ORDER] 0 or 1: the operator of order 12). *)
Theorem check_stability_wraps (self self' : Denise value) (max_vp max_vs : float) (h : Z) :
  max_relative_error (settings self') = max_relative_error (settings self) ->
  DH self' = DH self ->
  Z.quot (FD_ORDER (settings self)) 2 = h ->
  (-5 <= h <= 0)%Z ->
  Z.quot (FD_ORDER (settings self')) 2 = (h + 6)%Z ->
  value_of (check_stability np max_vp max_vs self) =
  value_of (check_stability np max_vp max_vs self').
Proof.
  intros He Hdh Hq Hh Hq'. rewrite !check_stability_value, He, Hdh.
  destruct (hc (max_relative_error (settings self))) as [table | ] eqn:Eh;
    [ | reflexivity ].
  pose proof (hc_rows _ Eh) as Hl. unfold fd_index. rewrite Hq, Hq'.
  rewrite getitem_wraps by (rewrite Hl; simpl; lia).
  rewrite Hl. replace (h - 1 + Z.of_nat 6)%Z with (h + 6 - 1)%Z by (simpl; lia).
  reflexivity.
Qed.

(** X10.  The two analyses treat a negative accuracy class differently:
    for a class [e] with [-5 <= e <= -1], [_check_max_frequency] reads
    the row of class [e + 5] from the end of its table and reports a
    frequency, whereas [_check_stability] on the same object raises
    [UnboundLocalError]. *)
Theorem negative_class_accepted (self : Denise value) (e h : Z) (min_vp min_vs : float) :
  max_relative_error (settings self) = e -> (-5 <= e <= -1)%Z ->
  Z.quot (FD_ORDER (settings self)) 2 = h -> (1 <= h <= 6)%Z ->
  np_min (nonzero (vp (model self))) = Ok min_vp ->
  np_min (nonzero (vs (model self))) = Ok min_vs ->
  (exists ppw,
     points_per_wavelength (e + 5) h = Some ppw /\
     check_max_frequency self =
     {| events := if (verbose self =? 1)%Z
                  then frequency_messages min_vs min_vp ppw
                         (v_min min_vp min_vs / (ppw * DH self))
                  else [];
        final := self;
        value_of := Ok tt |}) /\
  forall max_vp max_vs,
    value_of (check_stability np max_vp max_vs self) = Raise UnboundLocalError.
Proof.
  intros He Hclass Hq Hlen Hvp Hvs. split.
  - destruct (@gridpoints_lookup (e + 5) h ltac:(lia) Hlen)
      as (row & ppw & Hrow & Hppw & Hspec).
    exists ppw. split; [ exact Hspec | ].
    apply check_max_frequency_outcome with (row := row); try assumption.
    + rewrite He, getitem_wraps by (simpl; lia). exact Hrow.
    + unfold fd_index. now rewrite Hq.
  - intros max_vp max_vs. rewrite check_stability_value.
    rewrite (@hc_unbound (max_relative_error (settings self))) by lia.
    reflexivity.
Qed.

End Analyses.


(** [FD_ORDER = 0] is treated as [FD_ORDER = 12]: both return 0.0025. *)
Lemma check_stability_wraps_witness :
  value_of (check_stability Demo.numpy 3500 2000 (Cases.configured (Cases.taylor 0))) =
  value_of (check_stability Demo.numpy 3500 2000 (Cases.configured (Cases.taylor 12))) /\
  value_of (check_stability Demo.numpy 3500 2000 (Cases.configured (Cases.taylor 12))) =
  Ok 0.0025.
Proof.
  split.
  - apply (@check_stability_wraps Z Demo.numpy (Cases.configured (Cases.taylor 0))
             (Cases.configured (Cases.taylor 12)) 3500 2000 0 eq_refl eq_refl eq_refl).
    + lia.
    + reflexivity.
  - vm_compute. reflexivity.
Defined.

Lemma negative_class_accepted_witness :
  (exists ppw,
     points_per_wavelength 4 3 = Some ppw /\
     value_of (check_max_frequency (Cases.configured Cases.last_class)) = Ok tt /\
     In (Print [FText (tab :: txt "Maximum source wavelet frequency = ");
                FFloat (v_min 3500 (3500 / 1.7) / (ppw * 20));
                FText (txt " Hz")])
        (events (check_max_frequency (Cases.configured Cases.last_class)))) /\
  value_of (check_stability Demo.numpy 3500 2000 (Cases.configured Cases.last_class)) =
    Raise UnboundLocalError.
Proof.
  destruct (@negative_class_accepted Z Demo.numpy (Cases.configured Cases.last_class)
              (-1) 3 3500 (3500 / 1.7) eq_refl ltac:(lia) eq_refl ltac:(lia)
              demo_min_vp demo_min_vs) as [(ppw & Hspec & Hout) Hst].
  split; [ | apply Hst ].
  exists ppw. split; [ exact Hspec | ]. rewrite Hout. split; [ reflexivity | ].
  simpl. auto 10.
Defined.

End StabilityLaws.
